(** * Elijah-Studyspace: the classroom handlers of [app.py]

    A shallow embedding of the Flask application in [src/app.py]: the JSON
    document [db.json] is an explicit value threaded through the handlers,
    the signed session cookie is a record with optional fields, flashed
    messages are collected in a list, and the two sources of nondeterminism
    ([uuid.uuid4] and [random.randint]) are inputs of the handler.

    Strings are sequences of code points below 256, so that [str.strip] and
    [int] are modelled on the whole alphabet the model can express. *)

From Stdlib Require Import ZArith Ascii String DecimalString Lia.
From stdpp Require Import base list strings.

Local Open Scope Z_scope.

(** ** Python primitives *)

Module Py.

Definition code_point (c : ascii) : N := N_of_ascii c.

(** [str.isspace] on the code points below 256: TAB..CR, FS..US, SPACE,
    NEL and NBSP. *)
Definition isspace (c : ascii) : bool :=
  let n := code_point c in
  ((9 <=? n)%N && (n <=? 13)%N) || ((28 <=? n)%N && (n <=? 32)%N)
  || (n =? 133)%N || (n =? 160)%N.

Fixpoint lstrip (s : string) : string :=
  match s with
  | EmptyString => EmptyString
  | String c r => if isspace c then lstrip r else s
  end.

Fixpoint rstrip (s : string) : string :=
  match s with
  | EmptyString => EmptyString
  | String c r =>
      match rstrip r with
      | EmptyString => if isspace c then EmptyString else String c EmptyString
      | r' => String c r'
      end
  end.

(** [s.strip()] *)
Definition strip (s : string) : string := rstrip (lstrip s).

(** Truth value of a string: [not s] holds for the empty string. *)
Definition truthy (s : string) : bool :=
  match s with EmptyString => false | _ => true end.

(** Truth value of an optional string ([None] is falsy). *)
Definition truthy_opt (o : option string) : bool :=
  match o with None => false | Some s => truthy s end.

Definition isdigit (c : ascii) : bool :=
  let n := code_point c in (48 <=? n)%N && (n <=? 57)%N.

(** [str(n)] for a non-negative integer. *)
Definition str (n : nat) : string := NilZero.string_of_uint (Nat.to_uint n).

(** The blanks [int] skips at both ends of its argument: the ASCII blanks
    and, after its translation of non-ASCII blanks to spaces, NEL and NBSP
    (the separators FS..US are not skipped). *)
Definition int_space (c : ascii) : bool :=
  let n := code_point c in
  ((9 <=? n)%N && (n <=? 13)%N) || (n =? 32)%N || (n =? 133)%N || (n =? 160)%N.

Fixpoint int_lskip (s : string) : string :=
  match s with
  | EmptyString => EmptyString
  | String c r => if int_space c then int_lskip r else s
  end.

Fixpoint int_rskip (s : string) : string :=
  match s with
  | EmptyString => EmptyString
  | String c r =>
      match int_rskip r with
      | EmptyString => if int_space c then EmptyString else String c EmptyString
      | r' => String c r'
      end
  end.

(** Decimal digits with single underscores allowed between two digits;
    [after_digit] tells whether the previous character was a digit. *)
Fixpoint int_digits (acc : Z) (after_digit : bool) (s : string) : option Z :=
  match s with
  | EmptyString => if after_digit then Some acc else None
  | String c r =>
      if isdigit c
      then int_digits (10 * acc + (Z.of_N (code_point c) - 48)) true r
      else if bool_decide (c = "_"%char)
           then (if after_digit then int_digits acc false r else None)
           else None
  end.

(** The default of [sys.int_max_str_digits], which the application never
    changes: [int] refuses a literal with more digits. *)
Definition int_max_str_digits : N := 4300.

(** The number of digits of a literal; underscores do not count, leading
    zeros do. *)
Fixpoint count_digits (s : string) : N :=
  match s with
  | EmptyString => 0%N
  | String c r => ((if isdigit c then 1 else 0) + count_digits r)%N
  end.

(** An unsigned literal: well-formed and within the digit limit. *)
Definition int_literal (s : string) : option Z :=
  match int_digits 0 false s with
  | Some v => if (count_digits s <=? int_max_str_digits)%N then Some v else None
  | None => None
  end.

(** [int(s)] in base ten; [None] stands for [ValueError], raised for a
    malformed literal and for one of more than 4300 digits. *)
Definition int (s : string) : option Z :=
  match int_rskip (int_lskip s) with
  | String "-" r => Z.opp <$> int_literal r
  | String "+" r => int_literal r
  | t => int_literal t
  end.

End Py.

(** ** Insertion-ordered dictionaries

    A Python [dict] keeps its keys in insertion order, and the join-code scan
    depends on that order, so a dictionary is an association list. *)

Section Dict.
Context {V : Type}.

(** [d.get(k)] *)
Fixpoint dict_get (k : string) (d : list (string * V)) : option V :=
  match d with
  | [] => None
  | (k', v) :: d' => if bool_decide (k' = k) then Some v else dict_get k d'
  end.

(** [d[k] = v]: an existing key keeps its position, a new one goes last. *)
Fixpoint dict_set (k : string) (v : V) (d : list (string * V)) : list (string * V) :=
  match d with
  | [] => [(k, v)]
  | (k', v') :: d' =>
      if bool_decide (k' = k) then (k, v) :: d' else (k', v') :: dict_set k v d'
  end.

(** [d.values()] *)
Definition dict_values (d : list (string * V)) : list V := map snd d.

(** [d.keys()] *)
Definition dict_keys (d : list (string * V)) : list string := map fst d.

(** [d.pop(k, None)], the popped value dropped. *)
Fixpoint dict_pop (k : string) (d : list (string * V)) : list (string * V) :=
  match d with
  | [] => []
  | (k', v) :: d' => if bool_decide (k' = k) then d' else (k', v) :: dict_pop k d'
  end.
End Dict.

(** ** The persisted document *)

Record Announcement := { ann_text : string }.

Record Lesson := { les_title : string; les_body : string }.

(** The [student] of a submission is [user["name"]], which is [None] for a
    session that never logged in. *)
Record Submission := { sub_student : option string; sub_text : string }.

Record Assignment := {
  asg_title : string;
  asg_desc : string;
  asg_submissions : list Submission
}.

Record Classroom := {
  c_id : string;
  c_name : string;
  c_teacher_name : string;
  c_visibility : string;
  c_code : string;
  c_announcements : list Announcement;
  c_lessons : list Lesson;
  c_assignments : list Assignment
}.

(** [db.json]: [{"classrooms": {id: classroom}}] *)
Record Db := { classrooms : list (string * Classroom) }.

(** ** JSON values, for the projection served by [info.json] *)

#[local] Set Warnings "-register-all".

Inductive Json :=
| JNull
| JStr (s : string)
| JList (l : list Json)
| JObj (o : list (string * Json)).

Definition json_opt_str (o : option string) : Json :=
  match o with None => JNull | Some s => JStr s end.

Definition json_announcement (a : Announcement) : Json :=
  JObj [("text", JStr (ann_text a))].

Definition json_lesson (l : Lesson) : Json :=
  JObj [("title", JStr (les_title l)); ("body", JStr (les_body l))].

Definition json_submission (s : Submission) : Json :=
  JObj [("student", json_opt_str (sub_student s)); ("text", JStr (sub_text s))].

Definition json_assignment (a : Assignment) : Json :=
  JObj [("title", JStr (asg_title a)); ("desc", JStr (asg_desc a));
        ("submissions", JList (map json_submission (asg_submissions a)))].

(** The classroom as the dictionary [create_classroom] builds, keys in the
    order of the literal. *)
Definition classroom_dict (c : Classroom) : list (string * Json) :=
  [("id", JStr (c_id c));
   ("name", JStr (c_name c));
   ("teacher_name", JStr (c_teacher_name c));
   ("visibility", JStr (c_visibility c));
   ("code", JStr (c_code c));
   ("announcements", JList (map json_announcement (c_announcements c)));
   ("lessons", JList (map json_lesson (c_lessons c)));
   ("assignments", JList (map json_assignment (c_assignments c)))].

(** ** Session, request and response *)

(** The three keys of the session cookie; [None] is an absent key. *)
Record Session := {
  user_name : option string;
  role : option string;
  joined_classrooms : option (list string)
}.

Record User := {
  u_name : option string;
  u_role : option string;
  u_joined : list string
}.

Definition current_user (session : Session) : User :=
  {| u_name := user_name session;
     u_role := role session;
     u_joined := default [] (joined_classrooms session) |}.

Inductive Method := GET | POST.

Record Request := { method : Method; form : list (string * string) }.

(** [request.form.get(k)] *)
Definition form_get (k : string) (req : Request) : option string :=
  dict_get k (form req).

(** [request.form.get(k, d)] *)
Definition form_get_default (k d : string) (req : Request) : string :=
  default d (form_get k req).

Inductive Endpoint :=
| ep_index
| ep_login
| ep_teacher_dashboard
| ep_classroom_page (class_id : string).

Inductive Response :=
| Redirect (target : Endpoint)
| RenderTemplate (template : string) (classroom : option Classroom) (user : User)
| Jsonify (body : list (string * Json)) (status : nat).

(** A flashed message with its category. *)
Definition Flash : Type := string * string.

(** What a handler leaves behind: its response, the document on disk, the
    session cookie and the messages it flashed, oldest first. *)
Record Outcome := {
  resp : Response;
  db_out : Db;
  session_out : Session;
  flashes : list Flash
}.

Inductive Exn := ValueError.

(** A handler either completes or dies with an uncaught exception; the only
    one in reach is raised before anything was saved. *)
Inductive Result :=
| Done (o : Outcome)
| Raised (e : Exn).

(** ** Random join codes *)

(** The generator is a stream of raw draws. *)
Definition Rng : Type := nat -> nat.

Definition rng_tail (g : Rng) : Rng := fun n => g (S n).

(** [random.randint(a, b)]: some integer of [a..b]. *)
Definition randint (a b : nat) (g : Rng) : nat * Rng :=
  ((a + g 0%nat mod (b - a + 1))%nat, rng_tail g).

(** ["".join(str(random.randint(0, 9)) for _ in range(n))] *)
Fixpoint random_digits (n : nat) (g : Rng) : string * Rng :=
  match n with
  | O => (EmptyString, g)
  | S n' =>
      let (d, g1) := randint 0 9 g in
      let (s, g2) := random_digits n' g1 in
      (Py.str d +:+ s, g2)
  end.

Definition generate_code (g : Rng) : string * Rng := random_digits 6 g.

(** ** The handlers *)

Definition flash_teacher_only : Flash := ("Teacher access only.", "warning").
Definition flash_not_found : Flash := ("Classroom not found.", "danger").
Definition flash_private : Flash :=
  ("This is a private classroom. Use a join code or be invited.", "warning").
Definition flash_announcement_posted : Flash := ("Announcement posted.", "success").
Definition flash_announcement_denied : Flash :=
  ("Only the classroom teacher may post announcements.", "danger").
Definition flash_lesson_posted : Flash := ("Lesson posted.", "success").
Definition flash_lesson_denied : Flash :=
  ("Only the classroom teacher may post lessons.", "danger").
Definition flash_assignment_posted : Flash := ("Assignment posted.", "success").
Definition flash_assignment_denied : Flash :=
  ("Assignments allowed only in private classrooms by the teacher.", "danger").
Definition flash_submitted : Flash := ("Assignment submitted.", "success").
Definition flash_invalid_assignment : Flash := ("Invalid assignment.", "danger").
Definition flash_submit_denied : Flash :=
  ("You cannot submit assignments to this classroom.", "danger").
Definition flash_invalid_code : Flash := ("Invalid join code.", "danger").
Definition flash_created (name : string) : Flash :=
  ("Classroom '" +:+ name +:+ "' created.", "success").
Definition flash_joined (name : string) : Flash :=
  ("Joined classroom '" +:+ name +:+ "'.", "success").

(** [POST /create_classroom]; [cid] is the string of the fresh [uuid4]. *)
Definition create_classroom (cid : string) (g : Rng)
    (db : Db) (session : Session) (req : Request) : Outcome :=
  let user := current_user session in
  if negb (bool_decide (u_role user = Some "Teacher")) || negb (Py.truthy_opt (u_name user))
  then {| resp := Redirect ep_login; db_out := db; session_out := session;
          flashes := [flash_teacher_only] |}
  else
    let name := Py.strip (form_get_default "classroom_name" "Untitled Classroom" req) in
    let visibility := form_get_default "visibility" "Private" req in
    let code := if bool_decide (visibility = "Private") then fst (generate_code g) else "" in
    let classroom :=
      {| c_id := cid;
         c_name := name;
         c_teacher_name := default "" (u_name user);
         c_visibility := if negb (bool_decide (visibility = "Public")) then "Private" else "Public";
         c_code := code;
         c_announcements := [];
         c_lessons := [];
         c_assignments := [] |} in
    {| resp := Redirect ep_teacher_dashboard;
       db_out := {| classrooms := dict_set cid classroom (classrooms db) |};
       session_out := session;
       flashes := [flash_created name] |}.

(** [user["role"] == "Teacher" and user["name"] == classroom["teacher_name"]] *)
Definition is_owning_teacher (user : User) (classroom : Classroom) : bool :=
  bool_decide (u_role user = Some "Teacher")
  && bool_decide (u_name user = Some (c_teacher_name classroom)).

(** The access check at the head of [classroom_page]: the value of [allowed],
    or [true] when the check is skipped. *)
Definition view_allowed (user : User) (class_id : string) (classroom : Classroom) : bool :=
  if bool_decide (c_visibility classroom = "Private") then
    if is_owning_teacher user classroom then true
    else if bool_decide (class_id ∈ u_joined user) then true
    else false
  else true.

(** The condition guarding the [submit_assignment] branch. *)
Definition submit_allowed (user : User) (class_id : string) (classroom : Classroom) : bool :=
  bool_decide (c_visibility classroom = "Private")
  && (bool_decide (class_id ∈ u_joined user) || is_owning_teacher user classroom).

(** [int(request.form.get("assignment_idx", -1))] *)
Definition assignment_idx (req : Request) : option Z :=
  match form_get "assignment_idx" req with
  | None => Some (-1)
  | Some s => Py.int s
  end.

Definition with_announcements (c : Classroom) (l : list Announcement) : Classroom :=
  {| c_id := c_id c; c_name := c_name c; c_teacher_name := c_teacher_name c;
     c_visibility := c_visibility c; c_code := c_code c;
     c_announcements := l; c_lessons := c_lessons c;
     c_assignments := c_assignments c |}.

Definition with_lessons (c : Classroom) (l : list Lesson) : Classroom :=
  {| c_id := c_id c; c_name := c_name c; c_teacher_name := c_teacher_name c;
     c_visibility := c_visibility c; c_code := c_code c;
     c_announcements := c_announcements c; c_lessons := l;
     c_assignments := c_assignments c |}.

Definition with_assignments (c : Classroom) (l : list Assignment) : Classroom :=
  {| c_id := c_id c; c_name := c_name c; c_teacher_name := c_teacher_name c;
     c_visibility := c_visibility c; c_code := c_code c;
     c_announcements := c_announcements c; c_lessons := c_lessons c;
     c_assignments := l |}.

(** [a["submissions"].append(s)] *)
Definition add_submission (s : Submission) (a : Assignment) : Assignment :=
  {| asg_title := asg_title a; asg_desc := asg_desc a;
     asg_submissions := asg_submissions a ++ [s] |}.

(** The classroom object is the one held by [db], so a mutation of it
    followed by [save_db(db)] stores the document with that entry replaced. *)
Definition save_classroom (db : Db) (class_id : string) (c : Classroom) : Db :=
  {| classrooms := dict_set class_id c (classrooms db) |}.

(** The body of [if request.method == "POST":] up to the final reload: the
    saved document and the flashed messages, or the exception raised. *)
Definition post_action (class_id : string) (classroom : Classroom) (user : User)
    (db : Db) (req : Request) : Db * list Flash + Exn :=
  let action := form_get "action" req in
  if bool_decide (action = Some "post_announcement") then
    if is_owning_teacher user classroom then
      let text := Py.strip (form_get_default "announcement" "" req) in
      if Py.truthy text then
        inl (save_classroom db class_id
               (with_announcements classroom
                  ({| ann_text := text |} :: c_announcements classroom)),
             [flash_announcement_posted])
      else inl (db, [])
    else inl (db, [flash_announcement_denied])
  else if bool_decide (action = Some "post_lesson") then
    if is_owning_teacher user classroom then
      let title := Py.strip (form_get_default "lesson_title" "Untitled" req) in
      let body := Py.strip (form_get_default "lesson_body" "" req) in
      inl (save_classroom db class_id
             (with_lessons classroom
                ({| les_title := title; les_body := body |} :: c_lessons classroom)),
           [flash_lesson_posted])
    else inl (db, [flash_lesson_denied])
  else if bool_decide (action = Some "post_assignment") then
    if is_owning_teacher user classroom
       && bool_decide (c_visibility classroom = "Private") then
      let title := Py.strip (form_get_default "assignment_title" "Assignment" req) in
      let desc := Py.strip (form_get_default "assignment_desc" "" req) in
      inl (save_classroom db class_id
             (with_assignments classroom
                ({| asg_title := title; asg_desc := desc; asg_submissions := [] |}
                   :: c_assignments classroom)),
           [flash_assignment_posted])
    else inl (db, [flash_assignment_denied])
  else if bool_decide (action = Some "submit_assignment") then
    if submit_allowed user class_id classroom then
      match assignment_idx req with
      | None => inr ValueError
      | Some assign_idx =>
          let submission_text := Py.strip (form_get_default "submission_text" "" req) in
          if (0 <=? assign_idx) && (assign_idx <? Z.of_nat (length (c_assignments classroom)))
          then
            inl (save_classroom db class_id
                   (with_assignments classroom
                      (alter (add_submission {| sub_student := u_name user;
                                                sub_text := submission_text |})
                             (Z.to_nat assign_idx) (c_assignments classroom))),
                 [flash_submitted])
          else inl (db, [flash_invalid_assignment])
      end
    else inl (db, [flash_submit_denied])
  else inl (db, []).

(** [GET|POST /classroom/<class_id>] *)
Definition classroom_page (class_id : string)
    (db : Db) (session : Session) (req : Request) : Result :=
  match dict_get class_id (classrooms db) with
  | None =>
      Done {| resp := Redirect ep_index; db_out := db; session_out := session;
              flashes := [flash_not_found] |}
  | Some classroom =>
      let user := current_user session in
      if negb (view_allowed user class_id classroom) then
        Done {| resp := Redirect ep_index; db_out := db; session_out := session;
                flashes := [flash_private] |}
      else
        match method req with
        | GET =>
            Done {| resp := RenderTemplate "classroom.html" (Some classroom) user;
                    db_out := db; session_out := session; flashes := [] |}
        | POST =>
            match post_action class_id classroom user db req with
            | inr e => Raised e
            | inl (db', fl) =>
                Done {| resp := RenderTemplate "classroom.html"
                                  (dict_get class_id (classrooms db')) user;
                        db_out := db'; session_out := session; flashes := fl |}
            end
        end
  end.

(** The scan of [join_classroom]: the first classroom, in the order of the
    document, that is private and carries [code]. *)
Definition find_by_code (code : string) (db : Db) : option Classroom :=
  find (fun c => bool_decide (c_visibility c = "Private") && bool_decide (c_code c = code))
       (dict_values (classrooms db)).

(** [POST /join] *)
Definition join_classroom (db : Db) (session : Session) (req : Request) : Outcome :=
  let code := Py.strip (form_get_default "code" "" req) in
  match find_by_code code db with
  | None =>
      {| resp := Redirect ep_index; db_out := db; session_out := session;
         flashes := [flash_invalid_code] |}
  | Some found =>
      let joined := default [] (joined_classrooms session) in
      let joined' :=
        if negb (bool_decide (c_id found ∈ joined)) then joined ++ [c_id found] else joined in
      {| resp := Redirect (ep_classroom_page (c_id found));
         db_out := db;
         session_out := {| user_name := user_name session; role := role session;
                           joined_classrooms := Some joined' |};
         flashes := [flash_joined (c_name found)] |}
  end.

(** [GET /classroom/<class_id>/info.json] *)
Definition classroom_info_json (class_id : string) (db : Db) (session : Session) : Response :=
  match dict_get class_id (classrooms db) with
  | None => Jsonify [("error", JStr "not found")] 404
  | Some classroom =>
      let user := current_user session in
      let info := classroom_dict classroom in
      if negb (is_owning_teacher user classroom)
      then Jsonify (dict_pop "code" info) 200
      else Jsonify info 200
  end.

(** ** Properties stated by the specification *)

Fixpoint all_digits (s : string) : bool :=
  match s with
  | EmptyString => true
  | String c r => Py.isdigit c && all_digits r
  end.

(** [s] matches [^[0-9]{6}$]. *)
Definition six_digits (s : string) : bool :=
  bool_decide (String.length s = 6%nat) && all_digits s.

(** The invariant the specification puts on a classroom: a visibility of the
    enumeration, a six-digit code when private, no code when public. *)
Definition code_invariant (c : Classroom) : Prop :=
  (c_visibility c = "Public" ∨ c_visibility c = "Private")
  ∧ (c_visibility c = "Private" → six_digits (c_code c) = true)
  ∧ (c_visibility c = "Public" → c_code c = "").

(** The owning teacher, as the specification words it. *)
Definition owning_teacher (user : User) (c : Classroom) : Prop :=
  u_role user = Some "Teacher" ∧ u_name user = Some (c_teacher_name c).

(** A classroom is stored under its own id, with one of the two
    visibilities the application writes. *)
Definition entry_wf (entry : string * Classroom) : Prop :=
  c_id entry.2 = entry.1
  ∧ (c_visibility entry.2 = "Public" ∨ c_visibility entry.2 = "Private").

(** What every handler keeps true of the document: it is a dictionary (no
    key twice) of well-formed entries. *)
Definition store_wf (db : Db) : Prop :=
  NoDup (dict_keys (classrooms db)) ∧ Forall entry_wf (classrooms db).

(** The document [init_db] writes. *)
Definition empty_db : Db := {| classrooms := [] |}.

#[local] Instance entry_wf_dec (entry : string * Classroom) : Decision (entry_wf entry).
Proof. unfold entry_wf. apply _. Defined.

#[local] Instance store_wf_dec (db : Db) : Decision (store_wf db).
Proof. unfold store_wf. apply _. Defined.

(** The view rule in the words of the specification. *)
Definition may_view (user : User) (c : Classroom) : Prop :=
  c_visibility c = "Public" ∨ owning_teacher user c ∨ c_id c ∈ u_joined user.

(** The submission rule in the words of the specification. *)
Definition may_submit (user : User) (c : Classroom) : Prop :=
  c_visibility c = "Private" ∧ (c_id c ∈ u_joined user ∨ owning_teacher user c).

(** The refusal of the access check. *)
Definition landing_with_warning (db : Db) (session : Session) : Result :=
  Done {| resp := Redirect ep_index; db_out := db; session_out := session;
          flashes := [flash_private] |}.

(** The test of the scan, and what it decides. *)
Definition code_matches (code : string) (c : Classroom) : Prop :=
  c_visibility c = "Private" ∧ c_code c = code.

(** The claim on the resolver as it is worded: the stored code is compared
    with the submitted code itself, character for character. *)
Definition joins_on_exact_input (db : Db) (session : Session) (req : Request) : Prop :=
  let o := join_classroom db session req in
  match find_by_code (form_get_default "code" "" req) db with
  | Some c => resp o = Redirect (ep_classroom_page (c_id c))
              ∧ c_id c ∈ default [] (joined_classrooms (session_out o))
  | None => resp o = Redirect ep_index ∧ session_out o = session
  end.

Ltac pick_action Ha :=
  unfold post_action; rewrite Ha;
  repeat (rewrite bool_decide_false by discriminate);
  rewrite bool_decide_true by reflexivity.

(** ** Sample data: the scenario of the specification *)

Definition ex_algebra : Classroom :=
  {| c_id := "c1"; c_name := "Algebra"; c_teacher_name := "Ava";
     c_visibility := "Private"; c_code := "123456";
     c_announcements := []; c_lessons := [];
     c_assignments := [{| asg_title := "HW1"; asg_desc := ""; asg_submissions := [] |}] |}.

Definition ex_chess : Classroom :=
  {| c_id := "c2"; c_name := "Chess"; c_teacher_name := "Ava";
     c_visibility := "Public"; c_code := "";
     c_announcements := []; c_lessons := []; c_assignments := [] |}.

Definition ex_db : Db := {| classrooms := [("c1", ex_algebra); ("c2", ex_chess)] |}.

Definition ex_ava : Session :=
  {| user_name := Some "Ava"; role := Some "Teacher"; joined_classrooms := None |}.

Definition ex_ben : Session :=
  {| user_name := Some "Ben"; role := Some "Student"; joined_classrooms := Some ["c1"] |}.

Definition ex_cid : Session :=
  {| user_name := Some "Cid"; role := Some "Student"; joined_classrooms := Some [] |}.

(** A visitor who never logged in. *)
Definition ex_anon : Session :=
  {| user_name := None; role := None; joined_classrooms := None |}.

Definition ex_get : Request := {| method := GET; form := [] |}.

Definition ex_submit (idx : string) : Request :=
  {| method := POST;
     form := [("action", "submit_assignment"); ("assignment_idx", idx);
              ("submission_text", " done ")] |}.

Definition ex_announce : Request :=
  {| method := POST;
     form := [("action", "post_announcement"); ("announcement", "Quiz on Friday")] |}.

Definition ex_join (code : string) : Request :=
  {| method := POST; form := [("code", code)] |}.

(** The numeral made of [n] zeros. *)
Fixpoint ex_zeros (n : nat) : string :=
  match n with
  | O => EmptyString
  | S n' => String "0" (ex_zeros n')
  end.

(** ** The session and listing handlers

    [login], [logout], [index], [teacher_dashboard] and [public_directory]
    read the document without writing it; what they leave behind is a
    response, the session and the messages flashed. *)

Inductive SiteResponse :=
| SiteRedirect (target : Endpoint)
| SiteRender (template : string) (user : User)
| SiteListing (template : string) (listing : list Classroom) (user : User).

Record SiteOutcome := {
  site_resp : SiteResponse;
  site_session : Session;
  site_flashes : list Flash
}.

Definition flash_login_missing : Flash := ("Please provide a name and role.", "warning").
Definition flash_logged_in (name role : string) : Flash :=
  ("Logged in as " +:+ name +:+ " (" +:+ role +:+ ")", "success").
Definition flash_logged_out : Flash := ("Logged out.", "info").
Definition flash_teacher_login : Flash :=
  ("Teacher access only. Please log in as a teacher.", "warning").

(** [[c for c in db["classrooms"].values() if c["visibility"] == "Public"]] *)
Definition public_classrooms (db : Db) : list Classroom :=
  filter (λ c, c_visibility c = "Public") (dict_values (classrooms db)).

(** [[c for c in db["classrooms"].values() if c["teacher_name"] == name]] *)
Definition classrooms_of (name : option string) (db : Db) : list Classroom :=
  filter (λ c, Some (c_teacher_name c) = name) (dict_values (classrooms db)).

(** [GET /]: the first five public classrooms. *)
Definition index (db : Db) (session : Session) : SiteResponse :=
  let public := public_classrooms db in
  let featured := take 5 public in
  SiteListing "index.html" featured (current_user session).

(** [GET|POST /login] *)
Definition login (session : Session) (req : Request) : SiteOutcome :=
  match method req with
  | POST =>
      let name := Py.strip (form_get_default "name" "" req) in
      let chosen := form_get "role" req in
      if negb (Py.truthy name)
         || negb (bool_decide (chosen = Some "Teacher")
                  || bool_decide (chosen = Some "Student"))
      then {| site_resp := SiteRedirect ep_login; site_session := session;
              site_flashes := [flash_login_missing] |}
      else
        {| site_resp := if bool_decide (chosen = Some "Teacher")
                        then SiteRedirect ep_teacher_dashboard
                        else SiteRedirect ep_index;
           site_session :=
             {| user_name := Some name; role := chosen;
                joined_classrooms := Some (default [] (joined_classrooms session)) |};
           site_flashes := [flash_logged_in name (default "" chosen)] |}
  | GET =>
      {| site_resp := SiteRender "login.html" (current_user session);
         site_session := session; site_flashes := [] |}
  end.

(** [GET /logout]: [session.clear()] drops the three keys. *)
Definition logout (session : Session) : SiteOutcome :=
  {| site_resp := SiteRedirect ep_index;
     site_session := {| user_name := None; role := None; joined_classrooms := None |};
     site_flashes := [flash_logged_out] |}.

(** [GET /teacher/dashboard] *)
Definition teacher_dashboard (db : Db) (session : Session) : SiteOutcome :=
  let user := current_user session in
  if negb (bool_decide (u_role user = Some "Teacher")) || negb (Py.truthy_opt (u_name user))
  then {| site_resp := SiteRedirect ep_login; site_session := session;
          site_flashes := [flash_teacher_login] |}
  else
    let mine := classrooms_of (u_name user) db in
    {| site_resp := SiteListing "teacher_dashboard.html" mine user;
       site_session := session; site_flashes := [] |}.

(** [GET /public] *)
Definition public_directory (db : Db) (session : Session) : SiteResponse :=
  SiteListing "public_directory.html" (public_classrooms db) (current_user session).

(** ** The documents the application can produce *)

(** From the document of [init_db], by the two handlers that call
    [save_db], for any session and request. *)
Inductive reachable : Db → Prop :=
| reach_init : reachable empty_db
| reach_create cid g db session req :
    reachable db → reachable (db_out (create_classroom cid g db session req))
| reach_page class_id db session req o :
    reachable db → classroom_page class_id db session req = Done o →
    reachable (db_out o).

(** What holds of every classroom of a reachable document. *)
Definition classroom_sound (c : Classroom) : Prop :=
  (c_visibility c = "Public" ∨ c_visibility c = "Private")
  ∧ (c_code c = "" ∨ six_digits (c_code c) = true)
  ∧ (c_visibility c = "Public" → c_code c = "" ∧ c_assignments c = [])
  ∧ c_teacher_name c ≠ "".

(** An assignment keeps its title and description and only gains
    submissions, at the end. *)
Definition assignment_grows (a a' : Assignment) : Prop :=
  asg_title a' = asg_title a ∧ asg_desc a' = asg_desc a
  ∧ asg_submissions a `prefix_of` asg_submissions a'.

(** A classroom keeps its identity and only gains content: announcements,
    lessons and assignments in front, submissions behind. *)
Definition classroom_grows (c c' : Classroom) : Prop :=
  c_id c' = c_id c ∧ c_name c' = c_name c
  ∧ c_teacher_name c' = c_teacher_name c
  ∧ c_visibility c' = c_visibility c ∧ c_code c' = c_code c
  ∧ c_announcements c `suffix_of` c_announcements c'
  ∧ c_lessons c `suffix_of` c_lessons c'
  ∧ ∃ added kept, c_assignments c' = added ++ kept
                  ∧ Forall2 assignment_grows (c_assignments c) kept.

Definition ex_login (name chosen : string) : Request :=
  {| method := POST; form := [("name", name); ("role", chosen)] |}.

Definition ex_create (name visibility : string) : Request :=
  {| method := POST; form := [("classroom_name", name); ("visibility", visibility)] |}.

Definition ex_post_lesson : Request :=
  {| method := POST; form := [("action", "post_lesson")] |}.

Definition ex_post_assignment : Request :=
  {| method := POST;
     form := [("action", "post_assignment"); ("assignment_title", " HW2 ")] |}.

(** ** Lemmas on dictionaries *)

Section DictFacts.
Context {V : Type}.
Implicit Types (d : list (string * V)) (k : string) (v : V).

Lemma dict_get_set_eq k v d : dict_get k (dict_set k v d) = Some v.
Proof.
  induction d as [|[k' v'] d IH]; simpl.
  - by rewrite bool_decide_true.
  - case_bool_decide; simpl.
    + by rewrite bool_decide_true.
    + by rewrite bool_decide_false.
Qed.

Lemma dict_get_set_ne k k' v d :
  k ≠ k' → dict_get k' (dict_set k v d) = dict_get k' d.
Proof.
  intros Hne. induction d as [|[k0 v0] d IH]; simpl.
  - by rewrite bool_decide_false.
  - case_bool_decide as Hk; simpl.
    + subst k0. by rewrite !bool_decide_false.
    + by rewrite IH.
Qed.

Lemma dict_get_elem k v d : dict_get k d = Some v → (k, v) ∈ d.
Proof.
  induction d as [|[k' v'] d IH]; simpl; [done|].
  case_bool_decide; intros Hg.
  - simplify_eq. left.
  - right. auto.
Qed.

Lemma dict_get_None k d : dict_get k d = None ↔ k ∉ dict_keys d.
Proof.
  induction d as [|[k' v'] d IH]; simpl.
  - split; [intros _; apply not_elem_of_nil | done].
  - rewrite not_elem_of_cons. case_bool_decide; split; try done.
    + intros [? _]. congruence.
    + intros Hg. split; [congruence | by apply IH].
    + intros [_ ?]. by apply IH.
Qed.

Lemma dict_get_nodup k v d :
  NoDup (dict_keys d) → (k, v) ∈ d → dict_get k d = Some v.
Proof.
  induction d as [|[k' v'] d IH]; simpl; intros Hnd Hin.
  - by apply elem_of_nil in Hin.
  - apply NoDup_cons in Hnd as [Hk' Hnd].
    apply elem_of_cons in Hin as [Heq | Hin].
    + simplify_eq. by rewrite bool_decide_true.
    + case_bool_decide as Hk; [|by apply IH].
      subst k'. exfalso. apply Hk'.
      apply list_elem_of_fmap. by exists (k, v).
Qed.

Lemma dict_set_elem k v k' v' d :
  (k', v') ∈ dict_set k v d → (k' = k ∧ v' = v) ∨ (k', v') ∈ d.
Proof.
  induction d as [|[k0 v0] d IH]; simpl.
  - intros Hin%list_elem_of_singleton. simplify_eq. by left.
  - case_bool_decide; intros Hin%elem_of_cons.
    + destruct Hin as [? | ?]; [simplify_eq; by left | right; by right].
    + destruct Hin as [? | Hin]; [simplify_eq; right; left |].
      destruct (IH Hin) as [? | ?]; [by left | right; by right].
Qed.

Lemma dict_set_keys_elem k v k' d :
  k' ∈ dict_keys (dict_set k v d) → k' = k ∨ k' ∈ dict_keys d.
Proof.
  intros ([k0 v0] & -> & Hin)%list_elem_of_fmap. simpl.
  destruct (dict_set_elem _ _ _ _ _ Hin) as [[-> _] | Hin']; [by left | right].
  apply list_elem_of_fmap. by exists (k0, v0).
Qed.

Lemma dict_set_nodup k v d :
  NoDup (dict_keys d) → NoDup (dict_keys (dict_set k v d)).
Proof.
  induction d as [|[k' v'] d IH]; simpl; intros Hnd.
  - apply NoDup_singleton.
  - apply NoDup_cons in Hnd as [Hk' Hnd].
    case_bool_decide as Hk; simpl.
    + subst k'. by apply NoDup_cons.
    + apply NoDup_cons. split; [|by apply IH].
      intros [? | ?]%dict_set_keys_elem; [congruence | done].
Qed.

Lemma dict_values_elem v d : v ∈ dict_values d → ∃ k, (k, v) ∈ d.
Proof.
  intros ([k v'] & -> & Hin)%list_elem_of_fmap. by exists k.
Qed.

Lemma dict_get_pop_eq k d :
  NoDup (dict_keys d) → dict_get k (dict_pop k d) = None.
Proof.
  induction d as [|[k' v'] d IH]; simpl; intros Hnd; [done|].
  apply NoDup_cons in Hnd as [Hk' Hnd].
  case_bool_decide as Hk; simpl.
  - subst k'. by apply dict_get_None.
  - rewrite bool_decide_false by done. by apply IH.
Qed.

Lemma dict_get_pop_ne k k' d :
  k ≠ k' → dict_get k' (dict_pop k d) = dict_get k' d.
Proof.
  intros Hne. induction d as [|[k0 v0] d IH]; simpl; [done|].
  case_bool_decide as Hk; simpl.
  - subst k0. by rewrite bool_decide_false.
  - by rewrite IH.
Qed.
End DictFacts.

(** ** Join codes *)

Lemma str_digit (n : nat) :
  (n < 10)%nat → ∃ c, Py.str n = String c EmptyString ∧ Py.isdigit c = true.
Proof.
  intros Hn.
  do 10 (destruct n as [|n]; [eexists; split; reflexivity|]).
  lia.
Qed.

Lemma randint_range (a b : nat) (g : Rng) :
  (a ≤ b → a ≤ fst (randint a b g) ≤ b)%nat.
Proof.
  intros Hab. unfold randint. simpl.
  pose proof (Nat.mod_upper_bound (g 0%nat) (b - a + 1)). lia.
Qed.

Lemma random_digits_spec (n : nat) (g : Rng) :
  String.length (fst (random_digits n g)) = n
  ∧ all_digits (fst (random_digits n g)) = true.
Proof.
  revert g. induction n as [|n IH]; intros g; [done|].
  cbn [random_digits].
  destruct (randint 0 9 g) as [d g1] eqn:Hr.
  pose proof (randint_range 0 9 g) as Hd. rewrite Hr in Hd. simpl in Hd.
  destruct (str_digit d) as (c & -> & Hc); [lia|].
  specialize (IH g1). destruct (random_digits n g1) as [s g2].
  simpl in *. rewrite Hc. destruct IH as [Hlen Hdig]. split; [by f_equal | done].
Qed.

Lemma generate_code_six_digits (g : Rng) : six_digits (fst (generate_code g)) = true.
Proof.
  unfold six_digits, generate_code.
  destruct (random_digits_spec 6 g) as [Hl Hd].
  rewrite Hd, bool_decide_true; done.
Qed.

(** ** The document stays well formed *)

Lemma store_wf_empty : store_wf empty_db.
Proof.
  split; [apply NoDup_nil_2 | apply Forall_nil_2].
Qed.

Lemma store_wf_get (db : Db) (k : string) (c : Classroom) :
  store_wf db → dict_get k (classrooms db) = Some c →
  c_id c = k ∧ (c_visibility c = "Public" ∨ c_visibility c = "Private").
Proof.
  intros [_ Hwf] Hg. rewrite Forall_forall in Hwf.
  apply (Hwf (k, c)). by apply dict_get_elem.
Qed.

Lemma store_wf_save (db : Db) (k : string) (c : Classroom) :
  store_wf db → c_id c = k →
  c_visibility c = "Public" ∨ c_visibility c = "Private" →
  store_wf (save_classroom db k c).
Proof.
  intros [Hnd Hwf] Hid Hvis. split; simpl.
  - by apply dict_set_nodup.
  - rewrite Forall_forall in Hwf |- *.
    intros [k' c'] [[-> ->] | Hin]%dict_set_elem; [done | by apply Hwf].
Qed.

Lemma create_classroom_wf cid g db session req :
  store_wf db → store_wf (db_out (create_classroom cid g db session req)).
Proof.
  intros Hwf. unfold create_classroom.
  destruct (_ || _); simpl; [done|].
  apply (store_wf_save db cid); [done | done |]. simpl.
  case_bool_decide; simpl; auto.
Qed.

Lemma post_action_wf class_id c user db req db' fl :
  store_wf db → dict_get class_id (classrooms db) = Some c →
  post_action class_id c user db req = inl (db', fl) → store_wf db'.
Proof.
  intros Hwf Hg. destruct (store_wf_get _ _ _ Hwf Hg) as [Hid Hvis].
  unfold post_action.
  repeat case_bool_decide;
    repeat (match goal with
            | |- context [if ?b then _ else _] => destruct b
            | |- context [match ?o with Some _ => _ | None => _ end] => destruct o
            end);
    intros [= <- <-]; try done; by apply store_wf_save.
Qed.

Lemma classroom_page_wf class_id db session req o :
  store_wf db → classroom_page class_id db session req = Done o → store_wf (db_out o).
Proof.
  intros Hwf. unfold classroom_page.
  destruct (dict_get class_id (classrooms db)) as [c|] eqn:Hg; [|by intros [= <-]].
  destruct (negb _); [by intros [= <-]|].
  destruct (method req); [by intros [= <-]|].
  destruct (post_action _ _ _ _ _) as [[db' fl]|e] eqn:Hp; [|done].
  intros [= <-]. simpl. eauto using post_action_wf.
Qed.

Lemma join_classroom_db db session req :
  db_out (join_classroom db session req) = db.
Proof. unfold join_classroom. by destruct (find_by_code _ _). Qed.

Lemma ex_db_wf : store_wf ex_db.
Proof. by apply (bool_decide_unpack _). Qed.

(** ** Creating a classroom *)

Lemma create_classroom_denied cid g db session req :
  ¬ (role session = Some "Teacher" ∧ Py.truthy_opt (user_name session) = true) →
  create_classroom cid g db session req
  = {| resp := Redirect ep_login; db_out := db; session_out := session;
       flashes := [flash_teacher_only] |}.
Proof.
  intros Hn. unfold create_classroom. simpl.
  case_bool_decide; simpl; [|done].
  destruct (Py.truthy_opt (user_name session)); simpl; [|done].
  by destruct Hn.
Qed.

Lemma create_classroom_stored cid g db session req :
  role session = Some "Teacher" → Py.truthy_opt (user_name session) = true →
  let visibility := form_get_default "visibility" "Private" req in
  dict_get cid (classrooms (db_out (create_classroom cid g db session req)))
  = Some {| c_id := cid;
            c_name := Py.strip (form_get_default "classroom_name" "Untitled Classroom" req);
            c_teacher_name := default "" (user_name session);
            c_visibility := if bool_decide (visibility = "Public") then "Public" else "Private";
            c_code := if bool_decide (visibility = "Private")
                      then fst (generate_code g) else "";
            c_announcements := []; c_lessons := []; c_assignments := [] |}.
Proof.
  intros Hr Hn. unfold create_classroom. simpl.
  rewrite Hr, Hn, bool_decide_true by done. simpl.
  rewrite dict_get_set_eq. by case_bool_decide.
Qed.

(** With one of the two values the creation form offers (or none, which
    defaults to ["Private"]), the classroom satisfies the invariant. *)
Lemma create_classroom_menu_invariant cid g db session req c :
  role session = Some "Teacher" → Py.truthy_opt (user_name session) = true →
  form_get "visibility" req = None ∨ form_get "visibility" req = Some "Private"
  ∨ form_get "visibility" req = Some "Public" →
  dict_get cid (classrooms (db_out (create_classroom cid g db session req))) = Some c →
  code_invariant c.
Proof.
  intros Hr Hn Hv. rewrite create_classroom_stored by done.
  unfold form_get_default. intros [= <-]. unfold code_invariant. simpl.
  destruct Hv as [-> | [-> | ->]]; simpl;
    (split; [auto | split; intros; try done; apply generate_code_six_digits]).
Qed.

(** C1 (defect of the code). A teacher posting the visibility ["private"]
    gets a classroom stored as ["Private"] with an empty code, which breaks
    the invariant: private classrooms carry a six-digit code. *)
Theorem create_classroom_lowercase_private_breaks_invariant (g : Rng) :
  let req := {| method := POST;
                form := [("classroom_name", "Algebra"); ("visibility", "private")] |} in
  ∃ c, dict_get "c9" (classrooms (db_out (create_classroom "c9" g ex_db ex_ava req))) = Some c
       ∧ c_visibility c = "Private" ∧ c_code c = "" ∧ ¬ code_invariant c.
Proof.
  eexists. split; [reflexivity|]. simpl. split; [done|]. split; [done|].
  intros (_ & Hcode & _). specialize (Hcode eq_refl). done.
Qed.

(** C9. For a teacher's creation request whose visibility is a string other
    than ["Public"] and ["Private"], the stored classroom is ["Private"] and
    its code is the empty string. *)
Theorem create_classroom_other_visibility cid g db session req (v : string) :
  role session = Some "Teacher" → Py.truthy_opt (user_name session) = true →
  form_get "visibility" req = Some v →
  v ≠ "Public" → v ≠ "Private" →
  ∃ c, dict_get cid (classrooms (db_out (create_classroom cid g db session req))) = Some c
       ∧ c_id c = cid ∧ c_visibility c = "Private" ∧ c_code c = "".
Proof.
  intros Hr Hn Hv Hpub Hpriv. eexists. split.
  - by apply create_classroom_stored.
  - unfold form_get_default. rewrite Hv. simpl.
    by rewrite !bool_decide_false.
Qed.

Lemma create_classroom_other_visibility_witness :
  ∃ c, dict_get "c9" (classrooms (db_out
         (create_classroom "c9" (λ n, n) ex_db ex_ava
            {| method := POST; form := [("visibility", "private")] |}))) = Some c
       ∧ c_id c = "c9" ∧ c_visibility c = "Private" ∧ c_code c = "".
Proof.
  apply (create_classroom_other_visibility "c9" (λ n, n) ex_db ex_ava
           {| method := POST; form := [("visibility", "private")] |} "private");
    [reflexivity | reflexivity | reflexivity | discriminate | discriminate].
Defined.

(** ** Authorization rules *)

Lemma is_owning_teacher_true user c :
  is_owning_teacher user c = true ↔ owning_teacher user c.
Proof.
  unfold is_owning_teacher, owning_teacher.
  by rewrite andb_true_iff, !bool_decide_eq_true.
Qed.

Lemma is_owning_teacher_false user c :
  is_owning_teacher user c = false ↔ ¬ owning_teacher user c.
Proof. rewrite <- is_owning_teacher_true. by destruct (is_owning_teacher user c). Qed.

Lemma view_allowed_true user c :
  c_visibility c = "Public" ∨ c_visibility c = "Private" →
  view_allowed user (c_id c) c = true ↔ may_view user c.
Proof.
  intros Hvis. unfold view_allowed, may_view.
  case_bool_decide as Hpriv.
  - destruct (is_owning_teacher user c) eqn:Hown.
    + apply is_owning_teacher_true in Hown. tauto.
    + apply is_owning_teacher_false in Hown.
      case_bool_decide; split; try tauto; try done.
      intros [Hpub | [? | ?]]; try done. congruence.
  - split; [|done]. intros _. left. tauto.
Qed.

Lemma submit_allowed_true user c :
  submit_allowed user (c_id c) c = true ↔ may_submit user c.
Proof.
  unfold submit_allowed, may_submit.
  by rewrite andb_true_iff, orb_true_iff, !bool_decide_eq_true, is_owning_teacher_true.
Qed.

Lemma submit_allowed_view user class_id c :
  submit_allowed user class_id c = true → view_allowed user class_id c = true.
Proof.
  unfold submit_allowed, view_allowed.
  intros [Hpriv [Hj | Hown]%orb_true_iff]%andb_true_iff.
  - rewrite Hpriv, Hj. by destruct (is_owning_teacher user c).
  - by rewrite Hpriv, Hown.
Qed.

Lemma classroom_page_refused class_id db session req c :
  dict_get class_id (classrooms db) = Some c →
  view_allowed (current_user session) class_id c = false →
  classroom_page class_id db session req = landing_with_warning db session.
Proof. intros Hg Hv. unfold classroom_page. by rewrite Hg, Hv. Qed.

Lemma classroom_page_get class_id db session req c :
  dict_get class_id (classrooms db) = Some c →
  view_allowed (current_user session) class_id c = true →
  method req = GET →
  classroom_page class_id db session req
  = Done {| resp := RenderTemplate "classroom.html" (Some c) (current_user session);
            db_out := db; session_out := session; flashes := [] |}.
Proof. intros Hg Hv Hm. unfold classroom_page. by rewrite Hg, Hv, Hm. Qed.

Lemma classroom_page_post class_id db session req c :
  dict_get class_id (classrooms db) = Some c →
  view_allowed (current_user session) class_id c = true →
  method req = POST →
  classroom_page class_id db session req
  = match post_action class_id c (current_user session) db req with
    | inr e => Raised e
    | inl (db', fl) =>
        Done {| resp := RenderTemplate "classroom.html"
                          (dict_get class_id (classrooms db')) (current_user session);
                db_out := db'; session_out := session; flashes := fl |}
    end.
Proof. intros Hg Hv Hm. unfold classroom_page. by rewrite Hg, Hv, Hm. Qed.

(** C2. Viewing a classroom is allowed exactly when it is public, or the
    requester is its owning teacher, or its id is in the requester's joined
    list. When allowed the classroom page is rendered (a GET leaves the
    document as it is); otherwise the requester is sent to the landing page
    with a warning and the document is unchanged. *)
Theorem classroom_page_view class_id db session req c :
  store_wf db →
  dict_get class_id (classrooms db) = Some c →
  let user := current_user session in
  (view_allowed user class_id c = true ↔ may_view user c)
  ∧ (may_view user c →
     match classroom_page class_id db session req with
     | Done o => ∃ shown, resp o = RenderTemplate "classroom.html" shown user
                          ∧ session_out o = session
     | Raised _ => method req = POST
     end)
  ∧ (may_view user c → method req = GET →
     classroom_page class_id db session req
     = Done {| resp := RenderTemplate "classroom.html" (Some c) user;
               db_out := db; session_out := session; flashes := [] |})
  ∧ (¬ may_view user c →
     classroom_page class_id db session req = landing_with_warning db session).
Proof.
  intros Hwf Hg user.
  destruct (store_wf_get _ _ _ Hwf Hg) as [<- Hvis].
  pose proof (view_allowed_true user c Hvis) as Hiff.
  split; [done|]. split; [|split].
  - intros Hv%Hiff. destruct (method req) eqn:Hm.
    + rewrite (classroom_page_get _ _ _ _ c) by done. eauto.
    + rewrite (classroom_page_post _ _ _ _ c) by done.
      destruct (post_action _ _ _ _ _) as [[db' fl]|e]; [eauto | done].
  - intros Hv%Hiff Hm. by apply classroom_page_get.
  - intros Hv. apply (classroom_page_refused _ _ _ _ c); [done|].
    apply not_true_is_false. intros Ht. by apply Hv, Hiff.
Qed.

Lemma classroom_page_view_witness :
  let user := current_user ex_cid in
  (view_allowed user "c1" ex_algebra = true ↔ may_view user ex_algebra)
  ∧ (may_view user ex_algebra →
     match classroom_page "c1" ex_db ex_cid ex_get with
     | Done o => ∃ shown, resp o = RenderTemplate "classroom.html" shown user
                          ∧ session_out o = ex_cid
     | Raised _ => method ex_get = POST
     end)
  ∧ (may_view user ex_algebra → method ex_get = GET →
     classroom_page "c1" ex_db ex_cid ex_get
     = Done {| resp := RenderTemplate "classroom.html" (Some ex_algebra) user;
               db_out := ex_db; session_out := ex_cid; flashes := [] |})
  ∧ (¬ may_view user ex_algebra →
     classroom_page "c1" ex_db ex_cid ex_get = landing_with_warning ex_db ex_cid).
Proof.
  apply (classroom_page_view "c1" ex_db ex_cid ex_get ex_algebra);
    [apply (bool_decide_unpack _); vm_compute; exact I | reflexivity].
Defined.

(** ** Submitting to an assignment *)

Lemma post_action_submit_denied class_id c user db req :
  form_get "action" req = Some "submit_assignment" →
  submit_allowed user class_id c = false →
  post_action class_id c user db req = inl (db, [flash_submit_denied]).
Proof. intros Ha Hs. pick_action Ha. by rewrite Hs. Qed.

Lemma post_action_submit_malformed class_id c user db req :
  form_get "action" req = Some "submit_assignment" →
  submit_allowed user class_id c = true →
  assignment_idx req = None →
  post_action class_id c user db req = inr ValueError.
Proof. intros Ha Hs Hi. pick_action Ha. by rewrite Hs, Hi. Qed.

Lemma post_action_submit_in_range class_id c user db req (i : Z) :
  form_get "action" req = Some "submit_assignment" →
  submit_allowed user class_id c = true →
  assignment_idx req = Some i →
  0 ≤ i < Z.of_nat (length (c_assignments c)) →
  post_action class_id c user db req
  = inl (save_classroom db class_id
           (with_assignments c
              (alter (add_submission
                        {| sub_student := u_name user;
                           sub_text := Py.strip (form_get_default "submission_text" "" req) |})
                     (Z.to_nat i) (c_assignments c))),
         [flash_submitted]).
Proof.
  intros Ha Hs Hi Hr. pick_action Ha. rewrite Hs, Hi.
  replace (0 <=? i) with true by (symmetry; apply Z.leb_le; lia).
  replace (i <? _) with true by (symmetry; apply Z.ltb_lt; lia).
  done.
Qed.

Lemma post_action_submit_out_of_range class_id c user db req (i : Z) :
  form_get "action" req = Some "submit_assignment" →
  submit_allowed user class_id c = true →
  assignment_idx req = Some i →
  ¬ (0 ≤ i < Z.of_nat (length (c_assignments c))) →
  post_action class_id c user db req = inl (db, [flash_invalid_assignment]).
Proof.
  intros Ha Hs Hi Hr. pick_action Ha. rewrite Hs, Hi.
  destruct (Z.leb_spec 0 i); simpl; [|done].
  destruct (Z.ltb_spec i (Z.of_nat (length (c_assignments c)))); [lia | done].
Qed.

(** C3. A submission is permitted exactly when the classroom is private and
    the requester has joined it or is its owning teacher. A permitted request
    reaches the index check; a request that is not permitted is denied and
    leaves the document unchanged. *)
Theorem submit_assignment_permission class_id db session req c :
  store_wf db →
  dict_get class_id (classrooms db) = Some c →
  method req = POST →
  form_get "action" req = Some "submit_assignment" →
  let user := current_user session in
  (submit_allowed user class_id c = true ↔ may_submit user c)
  ∧ (may_submit user c → ∀ i, assignment_idx req = Some i →
     ∃ o, classroom_page class_id db session req = Done o
          ∧ (0 ≤ i < Z.of_nat (length (c_assignments c)) → flashes o = [flash_submitted])
          ∧ (¬ (0 ≤ i < Z.of_nat (length (c_assignments c))) →
             flashes o = [flash_invalid_assignment]))
  ∧ (¬ may_submit user c →
     ∃ o, classroom_page class_id db session req = Done o
          ∧ db_out o = db
          ∧ (flashes o = [flash_private] ∨ flashes o = [flash_submit_denied])).
Proof.
  intros Hwf Hg Hm Ha user.
  destruct (store_wf_get _ _ _ Hwf Hg) as [<- Hvis].
  pose proof (submit_allowed_true user c) as Hiff.
  split; [done|]. split.
  - intros Hs%Hiff i Hi.
    rewrite (classroom_page_post _ _ _ _ c) by auto using submit_allowed_view.
    destruct (decide (0 ≤ i < Z.of_nat (length (c_assignments c)))) as [Hr|Hr].
    + rewrite (post_action_submit_in_range _ _ _ _ _ i) by done.
      eexists. split; [done|]. simpl. split; [done|]. by intros [].
    + rewrite (post_action_submit_out_of_range _ _ _ _ _ i) by done.
      eexists. split; [done|]. simpl. split; [by intros ? | done].
  - intros Hs. assert (submit_allowed user (c_id c) c = false) as Hf.
    { apply not_true_is_false. intros Ht. by apply Hs, Hiff. }
    destruct (view_allowed user (c_id c) c) eqn:Hv.
    + rewrite (classroom_page_post _ _ _ _ c) by done.
      rewrite post_action_submit_denied by done.
      eexists. split; [done|]. simpl. auto.
    + rewrite (classroom_page_refused _ _ _ _ c) by done.
      eexists. split; [done|]. simpl. auto.
Qed.

Lemma submit_assignment_permission_witness :
  let user := current_user ex_ben in
  (submit_allowed user "c1" ex_algebra = true ↔ may_submit user ex_algebra)
  ∧ (may_submit user ex_algebra → ∀ i, assignment_idx (ex_submit "0") = Some i →
     ∃ o, classroom_page "c1" ex_db ex_ben (ex_submit "0") = Done o
          ∧ (0 ≤ i < Z.of_nat (length (c_assignments ex_algebra)) →
             flashes o = [flash_submitted])
          ∧ (¬ (0 ≤ i < Z.of_nat (length (c_assignments ex_algebra))) →
             flashes o = [flash_invalid_assignment]))
  ∧ (¬ may_submit user ex_algebra →
     ∃ o, classroom_page "c1" ex_db ex_ben (ex_submit "0") = Done o
          ∧ db_out o = ex_db
          ∧ (flashes o = [flash_private] ∨ flashes o = [flash_submit_denied])).
Proof.
  apply (submit_assignment_permission "c1" ex_db ex_ben (ex_submit "0") ex_algebra);
    [apply (bool_decide_unpack _); vm_compute; exact I
    | reflexivity | reflexivity | reflexivity].
Defined.


Lemma assignment_idx_field (req : Request) (s : string) :
  form_get "assignment_idx" req = Some s → assignment_idx req = Py.int s.
Proof. intros Hf. unfold assignment_idx. by rewrite Hf. Qed.



(** One past the last assignment is refused, and so is a negative index. *)
Example submit_one_past_last :
  classroom_page "c1" ex_db ex_ben (ex_submit "1")
  = Done {| resp := RenderTemplate "classroom.html" (Some ex_algebra) (current_user ex_ben);
            db_out := ex_db; session_out := ex_ben;
            flashes := [flash_invalid_assignment] |}
  ∧ classroom_page "c1" ex_db ex_ben (ex_submit "-1")
    = Done {| resp := RenderTemplate "classroom.html" (Some ex_algebra) (current_user ex_ben);
              db_out := ex_db; session_out := ex_ben;
              flashes := [flash_invalid_assignment] |}.
Proof. split; reflexivity. Qed.

(** [int] reads a numeral of 4300 digits and refuses one of 4301: the
    first is an index like any other, the second kills the handler. *)
Example submit_long_numerals :
  Py.int (ex_zeros 4300) = Some 0
  ∧ Py.int (ex_zeros 4301) = None
  ∧ (∃ o, classroom_page "c1" ex_db ex_ben (ex_submit (ex_zeros 4300)) = Done o
          ∧ flashes o = [flash_submitted])
  ∧ classroom_page "c1" ex_db ex_ben (ex_submit (ex_zeros 4301)) = Raised ValueError.
Proof.
  split; [by vm_compute|]. split; [by vm_compute|].
  split; [eexists; split; by vm_compute | by vm_compute].
Qed.

(** ** Posting an announcement *)

Lemma post_action_announcement_denied class_id c user db req :
  form_get "action" req = Some "post_announcement" →
  is_owning_teacher user c = false →
  post_action class_id c user db req = inl (db, [flash_announcement_denied]).
Proof. intros Ha Ho. pick_action Ha. by rewrite Ho. Qed.

Lemma post_action_announcement_posted class_id c user db req :
  form_get "action" req = Some "post_announcement" →
  is_owning_teacher user c = true →
  let text := Py.strip (form_get_default "announcement" "" req) in
  Py.truthy text = true →
  post_action class_id c user db req
  = inl (save_classroom db class_id
           (with_announcements c ({| ann_text := text |} :: c_announcements c)),
         [flash_announcement_posted]).
Proof. intros Ha Ho text Ht. pick_action Ha. fold text. by rewrite Ho, Ht. Qed.

(** C6. An announcement posted by anyone but the owning teacher is denied:
    the request completes with a refusal message (the private-classroom
    warning, or "Only the classroom teacher may post announcements."), and
    the document, hence the classroom's announcements, is unchanged. *)
Theorem post_announcement_by_non_owner class_id db session req c :
  dict_get class_id (classrooms db) = Some c →
  method req = POST →
  form_get "action" req = Some "post_announcement" →
  ¬ owning_teacher (current_user session) c →
  ∃ o, classroom_page class_id db session req = Done o
       ∧ db_out o = db
       ∧ (c_announcements <$> dict_get class_id (classrooms (db_out o)))
         = Some (c_announcements c)
       ∧ ((resp o = Redirect ep_index ∧ flashes o = [flash_private])
          ∨ flashes o = [flash_announcement_denied]).
Proof.
  intros Hg Hm Ha Hown%is_owning_teacher_false.
  destruct (view_allowed (current_user session) class_id c) eqn:Hv.
  - rewrite (classroom_page_post _ _ _ _ c) by done.
    rewrite post_action_announcement_denied by done.
    eexists. split; [done|]. simpl. rewrite Hg. auto.
  - rewrite (classroom_page_refused _ _ _ _ c) by done.
    eexists. split; [done|]. simpl. rewrite Hg. auto.
Qed.

Lemma post_announcement_by_non_owner_witness :
  ∃ o, classroom_page "c1" ex_db ex_ben ex_announce = Done o
       ∧ db_out o = ex_db
       ∧ (c_announcements <$> dict_get "c1" (classrooms (db_out o)))
         = Some (c_announcements ex_algebra)
       ∧ ((resp o = Redirect ep_index ∧ flashes o = [flash_private])
          ∨ flashes o = [flash_announcement_denied]).
Proof.
  apply (post_announcement_by_non_owner "c1" ex_db ex_ben ex_announce ex_algebra);
    [reflexivity | reflexivity | reflexivity |].
  unfold owning_teacher. simpl. intros [Hrole _]. discriminate Hrole.
Defined.

(** The owning teacher's announcement does go in, at the head of the list. *)
Example post_announcement_by_owner :
  ∃ o c', classroom_page "c1" ex_db ex_ava ex_announce = Done o
          ∧ dict_get "c1" (classrooms (db_out o)) = Some c'
          ∧ c_announcements c' = [{| ann_text := "Quiz on Friday" |}].
Proof. by eexists _, _. Qed.

(** ** The JSON projection *)

Lemma classroom_dict_keys (c : Classroom) :
  dict_keys (classroom_dict c)
  = ["id"; "name"; "teacher_name"; "visibility"; "code";
     "announcements"; "lessons"; "assignments"].
Proof. reflexivity. Qed.

(** C7. The projection served by [info.json] carries the [code] field for
    the owning teacher only; every other field of the classroom is served to
    any requester. *)
Theorem classroom_info_json_code class_id db session c :
  dict_get class_id (classrooms db) = Some c →
  let user := current_user session in
  ∃ info, classroom_info_json class_id db session = Jsonify info 200
    ∧ (owning_teacher user c →
       dict_get "code" info = Some (JStr (c_code c))
       ∧ dict_keys info = dict_keys (classroom_dict c))
    ∧ (¬ owning_teacher user c →
       dict_get "code" info = None
       ∧ ("code" ∉ dict_keys info)
       ∧ dict_keys info = ["id"; "name"; "teacher_name"; "visibility";
                           "announcements"; "lessons"; "assignments"])
    ∧ (∀ k, k ≠ "code" → dict_get k info = dict_get k (classroom_dict c))
    ∧ dict_get "id" info = Some (JStr (c_id c))
    ∧ dict_get "name" info = Some (JStr (c_name c))
    ∧ dict_get "teacher_name" info = Some (JStr (c_teacher_name c))
    ∧ dict_get "visibility" info = Some (JStr (c_visibility c))
    ∧ dict_get "announcements" info
      = Some (JList (map json_announcement (c_announcements c)))
    ∧ dict_get "lessons" info = Some (JList (map json_lesson (c_lessons c)))
    ∧ dict_get "assignments" info
      = Some (JList (map json_assignment (c_assignments c))).
Proof.
  intros Hg user. unfold classroom_info_json. rewrite Hg. fold user.
  destruct (is_owning_teacher user c) eqn:Hown; simpl.
  - apply is_owning_teacher_true in Hown.
    eexists. split; [done|]. repeat split; try done.
  - apply is_owning_teacher_false in Hown.
    eexists. split; [done|]. split; [done|]. split.
    { intros _. split; [done|]. split; [|done]. apply dict_get_None. done. }
    split; [|done].
    intros k Hk. apply (dict_get_pop_ne "code" k (classroom_dict c)). congruence.
Qed.

Lemma classroom_info_json_code_witness :
  let user := current_user ex_ben in
  ∃ info, classroom_info_json "c1" ex_db ex_ben = Jsonify info 200
    ∧ (owning_teacher user ex_algebra →
       dict_get "code" info = Some (JStr (c_code ex_algebra))
       ∧ dict_keys info = dict_keys (classroom_dict ex_algebra))
    ∧ (¬ owning_teacher user ex_algebra →
       dict_get "code" info = None
       ∧ ("code" ∉ dict_keys info)
       ∧ dict_keys info = ["id"; "name"; "teacher_name"; "visibility";
                           "announcements"; "lessons"; "assignments"])
    ∧ (∀ k, k ≠ "code" → dict_get k info = dict_get k (classroom_dict ex_algebra))
    ∧ dict_get "id" info = Some (JStr (c_id ex_algebra))
    ∧ dict_get "name" info = Some (JStr (c_name ex_algebra))
    ∧ dict_get "teacher_name" info = Some (JStr (c_teacher_name ex_algebra))
    ∧ dict_get "visibility" info = Some (JStr (c_visibility ex_algebra))
    ∧ dict_get "announcements" info
      = Some (JList (map json_announcement (c_announcements ex_algebra)))
    ∧ dict_get "lessons" info = Some (JList (map json_lesson (c_lessons ex_algebra)))
    ∧ dict_get "assignments" info
      = Some (JList (map json_assignment (c_assignments ex_algebra))).
Proof.
  apply (classroom_info_json_code "c1" ex_db ex_ben ex_algebra). reflexivity.
Defined.

(** ** Joining by code *)

Lemma find_first {A : Type} (f : A → bool) (l : list A) :
  match find f l with
  | Some x => ∃ before after,
      l = before ++ x :: after ∧ f x = true ∧ ∀ y, y ∈ before → f y = false
  | None => ∀ y, y ∈ l → f y = false
  end.
Proof.
  induction l as [|a l IH]; simpl.
  - intros y Hy. by apply elem_of_nil in Hy.
  - destruct (f a) eqn:Hfa.
    + exists [], l. split; [done|]. split; [done|].
      intros y Hy. by apply elem_of_nil in Hy.
    + destruct (find f l) as [x|].
      * destruct IH as (before & after & -> & Hx & Hb).
        exists (a :: before), after. split; [done|]. split; [done|].
        intros y [-> | Hy]%elem_of_cons; auto.
      * intros y [-> | Hy]%elem_of_cons; auto.
Qed.

Lemma code_matches_true code c :
  bool_decide (c_visibility c = "Private") && bool_decide (c_code c = code) = true
  ↔ code_matches code c.
Proof. unfold code_matches. by rewrite andb_true_iff, !bool_decide_eq_true. Qed.

Lemma code_matches_false code c :
  bool_decide (c_visibility c = "Private") && bool_decide (c_code c = code) = false
  ↔ ¬ code_matches code c.
Proof.
  rewrite <- code_matches_true. by destruct (_ && _).
Qed.

Lemma find_by_code_Some code db c :
  find_by_code code db = Some c →
  code_matches code c ∧ c ∈ dict_values (classrooms db).
Proof.
  unfold find_by_code. intros Hf.
  pose proof (find_first
    (λ c, bool_decide (c_visibility c = "Private") && bool_decide (c_code c = code))
    (dict_values (classrooms db))) as Hfirst.
  rewrite Hf in Hfirst. destruct Hfirst as (before & after & Hl & Hm & _).
  split; [by apply code_matches_true|].
  rewrite Hl. apply elem_of_app. right. left.
Qed.

(** C4, as worded, fails: no stored code equals the input [" 123456 "], yet
    the request joins the classroom whose code is ["123456"]. *)
Lemma join_classroom_trims_the_input :
  (∀ c, c ∈ dict_values (classrooms ex_db) → c_code c ≠ " 123456 ")
  ∧ resp (join_classroom ex_db ex_cid (ex_join " 123456 "))
    = Redirect (ep_classroom_page "c1")
  ∧ joined_classrooms (session_out (join_classroom ex_db ex_cid (ex_join " 123456 ")))
    = Some ["c1"]
  ∧ ¬ joins_on_exact_input ex_db ex_cid (ex_join " 123456 ").
Proof.
  split; [|split; [reflexivity | split; [reflexivity|]]].
  - intros c Hc. simpl in Hc.
    apply elem_of_cons in Hc as [-> | Hc]; [done|].
    apply list_elem_of_singleton in Hc as ->. done.
  - unfold joins_on_exact_input. simpl. intros [Hresp _]. discriminate Hresp.
Qed.

(** C4 (amended). [join_classroom] strips the blanks around the submitted
    code and scans the classrooms in the order of the document; it resolves
    to the first one that is private and whose stored code equals the
    stripped input, with no other normalization. On a match the session's
    joined list gains that classroom's id; with no match the request ends
    with "Invalid join code." and the session is unchanged. The document is
    never modified. *)
Theorem join_classroom_resolves_stripped_code db session req :
  let code := Py.strip (form_get_default "code" "" req) in
  let joined := default [] (joined_classrooms session) in
  let o := join_classroom db session req in
  db_out o = db
  ∧ ((∃ before found after joined',
        dict_values (classrooms db) = before ++ found :: after
        ∧ (∀ c, c ∈ before → ¬ code_matches code c)
        ∧ code_matches code found
        ∧ resp o = Redirect (ep_classroom_page (c_id found))
        ∧ flashes o = [flash_joined (c_name found)]
        ∧ session_out o = {| user_name := user_name session; role := role session;
                             joined_classrooms := Some joined' |}
        ∧ ∀ x, x ∈ joined' ↔ x ∈ joined ∨ x = c_id found)
     ∨ ((∀ c, c ∈ dict_values (classrooms db) → ¬ code_matches code c)
        ∧ resp o = Redirect ep_index
        ∧ flashes o = [flash_invalid_code]
        ∧ session_out o = session)).
Proof.
  intros code joined o. split; [apply join_classroom_db|].
  subst o. unfold join_classroom, find_by_code. fold code.
  pose proof (find_first
    (λ c, bool_decide (c_visibility c = "Private") && bool_decide (c_code c = code))
    (dict_values (classrooms db))) as Hfirst.
  destruct (find _ _) as [found|].
  - left. destruct Hfirst as (before & after & Hl & Hm & Hb).
    exists before, found, after. eexists. split; [done|].
    split; [intros c Hc; by apply code_matches_false, Hb|].
    split; [by apply code_matches_true|].
    simpl. split; [done|]. split; [done|]. split; [done|].
    fold joined. intros x.
    destruct (decide (c_id found ∈ joined)) as [Hin|Hin].
    + rewrite (bool_decide_true _ Hin). simpl.
      split; [auto | intros [? | ->]; done].
    + rewrite (bool_decide_false _ Hin). simpl.
      by rewrite elem_of_app, list_elem_of_singleton.
  - right. simpl. split; [|done].
    intros c Hc. by apply code_matches_false, Hfirst.
Qed.

(** The exact comparison after stripping: a code in another letter case or
    with inner blanks does not resolve. *)
Example join_classroom_no_other_normalization :
  resp (join_classroom ex_db ex_cid (ex_join "123 456")) = Redirect ep_index
  ∧ session_out (join_classroom ex_db ex_cid (ex_join "123 456")) = ex_cid.
Proof. done. Qed.

Lemma join_classroom_nodup db session req :
  NoDup (default [] (joined_classrooms session)) →
  NoDup (default [] (joined_classrooms (session_out (join_classroom db session req)))).
Proof.
  intros Hnd. unfold join_classroom.
  destruct (find_by_code _ _) as [found|]; simpl; [|done].
  case_bool_decide as Hin; simpl; [done|].
  apply NoDup_app. split; [done|]. split; [|apply NoDup_singleton].
  intros x Hx ->%list_elem_of_singleton. done.
Qed.

(** C8. Joining twice with the same code leaves the session as the first
    join left it: the joined list is the same, of the same length, and the
    first join added the id at most once, only when it was not there. *)
Theorem join_classroom_idempotent db session req :
  let joined := default [] (joined_classrooms session) in
  let o1 := join_classroom db session req in
  let o2 := join_classroom (db_out o1) (session_out o1) req in
  let joined1 := default [] (joined_classrooms (session_out o1)) in
  let joined2 := default [] (joined_classrooms (session_out o2)) in
  session_out o2 = session_out o1
  ∧ joined2 = joined1
  ∧ length joined2 = length joined1
  ∧ resp o2 = resp o1
  ∧ (joined1 = joined ∨ ∃ cid, (cid ∉ joined) ∧ joined1 = joined ++ [cid]).
Proof.
  intros joined o1 o2 joined1 joined2.
  assert (session_out o2 = session_out o1 ∧ resp o2 = resp o1
          ∧ (joined1 = joined ∨ ∃ cid, (cid ∉ joined) ∧ joined1 = joined ++ [cid]))
    as (Hs & Hr & Hj).
  { subst joined1 joined2 o2 o1 joined. rewrite join_classroom_db.
    unfold join_classroom.
    destruct (find_by_code _ db) as [found|] eqn:Hf; simpl.
    - destruct (decide (c_id found ∈ default [] (joined_classrooms session)))
        as [Hin|Hin].
      + rewrite !(bool_decide_true _ Hin). simpl. auto.
      + rewrite !(bool_decide_false _ Hin). simpl.
        rewrite bool_decide_true by (apply elem_of_app; right; left).
        simpl. split; [done|]. split; [done|]. right. eauto.
    - auto. }
  subst joined1 joined2. rewrite Hs. done.
Qed.

(** ** Joining and submitting without logging in *)

Lemma find_by_code_get code db c :
  store_wf db → find_by_code code db = Some c →
  dict_get (c_id c) (classrooms db) = Some c ∧ c_visibility c = "Private".
Proof.
  intros Hwf [[Hpriv _] Hin]%find_by_code_Some.
  split; [|done].
  apply dict_values_elem in Hin as [k Hin].
  destruct Hwf as [Hnd Hall]. rewrite Forall_forall in Hall.
  destruct (Hall _ Hin) as [Hid _]. simpl in Hid. subst k.
  by apply dict_get_nodup.
Qed.

Lemma join_classroom_found db session req c :
  find_by_code (Py.strip (form_get_default "code" "" req)) db = Some c →
  let joined := default [] (joined_classrooms session) in
  join_classroom db session req
  = {| resp := Redirect (ep_classroom_page (c_id c));
       db_out := db;
       session_out :=
         {| user_name := user_name session; role := role session;
            joined_classrooms :=
              Some (if bool_decide (c_id c ∈ joined) then joined
                    else joined ++ [c_id c]) |};
       flashes := [flash_joined (c_name c)] |}.
Proof.
  intros Hf joined. unfold join_classroom. rewrite Hf. fold joined.
  by destruct (bool_decide (c_id c ∈ joined)).
Qed.

(** C10. [join_classroom] asks nothing of the requester's name or role: a
    session with neither that presents a matching code gets the classroom's
    id in its joined list, exactly as any session with the same joined list
    would, and a later submission from that session whose index field
    [int] reads as an index in range is appended with the absent name as
    its student. *)
Theorem anonymous_join_then_submit db session req c :
  store_wf db →
  user_name session = None →
  role session = None →
  find_by_code (Py.strip (form_get_default "code" "" req)) db = Some c →
  let o := join_classroom db session req in
  resp o = Redirect (ep_classroom_page (c_id c))
  ∧ db_out o = db
  ∧ user_name (session_out o) = None
  ∧ role (session_out o) = None
  ∧ c_id c ∈ default [] (joined_classrooms (session_out o))
  ∧ (∀ session',
       joined_classrooms session' = joined_classrooms session →
       resp (join_classroom db session' req) = resp o
       ∧ joined_classrooms (session_out (join_classroom db session' req))
         = joined_classrooms (session_out o))
  ∧ (∀ sub (s : string) (i : Z) a,
       method sub = POST →
       form_get "action" sub = Some "submit_assignment" →
       form_get "assignment_idx" sub = Some s →
       Py.int s = Some i →
       0 ≤ i →
       c_assignments c !! Z.to_nat i = Some a →
       ∃ o2 c2,
         classroom_page (c_id c) (db_out o) (session_out o) sub = Done o2
         ∧ flashes o2 = [flash_submitted]
         ∧ dict_get (c_id c) (classrooms (db_out o2)) = Some c2
         ∧ c_assignments c2 !! Z.to_nat i
           = Some {| asg_title := asg_title a; asg_desc := asg_desc a;
                     asg_submissions :=
                       asg_submissions a
                       ++ [{| sub_student := None;
                              sub_text := Py.strip
                                (form_get_default "submission_text" "" sub) |}] |}).
Proof.
  intros Hwf Hname Hrole Hf o.
  destruct (find_by_code_get _ _ _ Hwf Hf) as [Hg Hpriv].
  assert (c_id c ∈ default [] (joined_classrooms (session_out o))) as Hjoined.
  { subst o. rewrite (join_classroom_found _ _ _ c) by done. simpl.
    case_bool_decide; [done|]. apply elem_of_app. right. left. }
  subst o. split; [by rewrite (join_classroom_found _ _ _ c)|].
  split; [apply join_classroom_db|].
  split; [by rewrite (join_classroom_found _ _ _ c)|].
  split; [by rewrite (join_classroom_found _ _ _ c)|].
  split; [done|]. split.
  - intros session' Hsame.
    rewrite !(join_classroom_found _ _ _ c) by done. simpl.
    by rewrite Hsame.
  - intros sub s i a Hm Ha Hfield Hint Hpos Hlook.
    assert (assignment_idx sub = Some i) as Hi
      by by rewrite (assignment_idx_field sub s).
    set (o := join_classroom db session req) in *.
    assert (db_out o = db) as -> by apply join_classroom_db.
    assert (user_name (session_out o) = None) as Hanon.
    { subst o. by rewrite (join_classroom_found _ _ _ c). }
    assert (submit_allowed (current_user (session_out o)) (c_id c) c = true) as Hs.
    { unfold submit_allowed. simpl.
      by rewrite (bool_decide_true _ Hpriv), (bool_decide_true _ Hjoined). }
    rewrite (classroom_page_post _ _ _ _ c) by auto using submit_allowed_view.
    rewrite (post_action_submit_in_range _ _ _ _ _ i); [|done|done|done|].
    2:{ apply lookup_lt_Some in Hlook. lia. }
    eexists _, _. split; [done|]. simpl. split; [done|].
    split; [apply dict_get_set_eq|]. simpl.
    rewrite list_lookup_alter_eq, Hlook. simpl.
    unfold add_submission. simpl. by rewrite Hanon.
Qed.

(** The visitor who never logged in joins with the code of the sample
    classroom and submits to its assignment: the submission is stored with
    no student name. *)
Lemma anonymous_join_then_submit_witness :
  let o := join_classroom ex_db ex_anon (ex_join "123456") in
  resp o = Redirect (ep_classroom_page "c1")
  ∧ user_name (session_out o) = None
  ∧ role (session_out o) = None
  ∧ "c1" ∈ default [] (joined_classrooms (session_out o))
  ∧ ∃ o2 c2,
      classroom_page "c1" (db_out o) (session_out o) (ex_submit "0") = Done o2
      ∧ flashes o2 = [flash_submitted]
      ∧ dict_get "c1" (classrooms (db_out o2)) = Some c2
      ∧ c_assignments c2 !! 0%nat
        = Some {| asg_title := "HW1"; asg_desc := "";
                  asg_submissions :=
                    [{| sub_student := None; sub_text := "done" |}] |}.
Proof.
  destruct (anonymous_join_then_submit ex_db ex_anon (ex_join "123456") ex_algebra)
    as (Hresp & _ & Hname & Hrole & Hjoined & _ & Hsub);
    [apply (bool_decide_unpack _); vm_compute; exact I
    | reflexivity | reflexivity | reflexivity |].
  split; [exact Hresp|]. split; [exact Hname|]. split; [exact Hrole|].
  split; [exact Hjoined|].
  exact (Hsub (ex_submit "0") "0" 0
           {| asg_title := "HW1"; asg_desc := ""; asg_submissions := [] |}
           eq_refl eq_refl eq_refl eq_refl (Z.le_refl 0) eq_refl).
Defined.

(** The same run on the sample data, evaluated: the stored submission has no
    student name. *)
Example anonymous_submission_stored :
  let o := join_classroom ex_db ex_anon (ex_join "123456") in
  ∃ o2 c2,
    classroom_page "c1" (db_out o) (session_out o) (ex_submit "0") = Done o2
    ∧ dict_get "c1" (classrooms (db_out o2)) = Some c2
    ∧ c_assignments c2
      = [{| asg_title := "HW1"; asg_desc := "";
            asg_submissions := [{| sub_student := None; sub_text := "done" |}] |}].
Proof. by eexists _, _. Qed.

(** ** The scenarios of the specification *)

(** Ben, who joined, submits "done" at index 0; index 5 is refused. *)
Example scenario_ben_submits :
  ∃ o c', classroom_page "c1" ex_db ex_ben (ex_submit "0") = Done o
          ∧ flashes o = [flash_submitted]
          ∧ dict_get "c1" (classrooms (db_out o)) = Some c'
          ∧ (asg_submissions <$> c_assignments c' !! 0%nat)
            = Some [{| sub_student := Some "Ben"; sub_text := "done" |}].
Proof. by eexists _, _. Qed.

Example scenario_ben_index_5 :
  classroom_page "c1" ex_db ex_ben (ex_submit "5")
  = Done {| resp := RenderTemplate "classroom.html" (Some ex_algebra) (current_user ex_ben);
            db_out := ex_db; session_out := ex_ben;
            flashes := [flash_invalid_assignment] |}.
Proof. reflexivity. Qed.

(** An index that is not an integer is not caught: [int] raises. *)
Example scenario_malformed_index :
  classroom_page "c1" ex_db ex_ben (ex_submit "first") = Raised ValueError.
Proof. reflexivity. Qed.

(** Cid, who never joined, is turned away from the private classroom. *)
Example scenario_cid_refused :
  classroom_page "c1" ex_db ex_cid ex_get = landing_with_warning ex_db ex_cid.
Proof. reflexivity. Qed.

(** A private classroom created with the visibility ["private"] has the empty
    code, so an empty join code resolves to it. *)
Example scenario_empty_code_joins :
  let req := {| method := POST;
                form := [("classroom_name", "Algebra"); ("visibility", "private")] |} in
  let db := db_out (create_classroom "c9" (λ n, n) empty_db ex_ava req) in
  resp (join_classroom db ex_anon (ex_join "")) = Redirect (ep_classroom_page "c9").
Proof. reflexivity. Qed.

(** ** More on dictionaries *)

Section DictMore.
Context {V : Type}.
Implicit Types (d : list (string * V)) (k : string) (v : V).

Lemma dict_set_fresh k v d :
  dict_get k d = None → dict_set k v d = d ++ [(k, v)].
Proof.
  induction d as [|[k' v'] d IH]; simpl; [done|].
  case_bool_decide; [done|]. intros Hg. by rewrite IH.
Qed.

Lemma dict_set_keys_present k v v0 d :
  dict_get k d = Some v0 → dict_keys (dict_set k v d) = dict_keys d.
Proof.
  induction d as [|[k' v'] d IH]; simpl; [done|].
  case_bool_decide as Hk; simpl.
  - by subst k'.
  - intros Hg. by rewrite IH.
Qed.

Lemma dict_set_Forall (P : string * V → Prop) k v d :
  P (k, v) → Forall P d → Forall P (dict_set k v d).
Proof.
  intros Hnew Hall. rewrite Forall_forall in Hall |- *.
  intros [k' v'] [[-> ->] | Hin]%dict_set_elem; auto.
Qed.

Lemma dict_get_Forall (P : string * V → Prop) k v d :
  Forall P d → dict_get k d = Some v → P (k, v).
Proof.
  intros Hall Hg. rewrite Forall_forall in Hall. by apply Hall, dict_get_elem.
Qed.

Lemma dict_get_values k v d : dict_get k d = Some v → v ∈ dict_values d.
Proof.
  intros Hin%dict_get_elem. apply list_elem_of_fmap. by exists (k, v).
Qed.
End DictMore.

(** ** The format of a join code *)

Lemma isdigit_not_isspace (c : ascii) : Py.isdigit c = true → Py.isspace c = false.
Proof.
  unfold Py.isdigit, Py.isspace. set (n := Py.code_point c).
  intros [Hlo Hhi]%andb_true_iff.
  apply N.leb_le in Hlo. apply N.leb_le in Hhi.
  repeat (apply orb_false_iff; split);
    try (apply andb_false_iff; right; apply N.leb_gt; lia);
    apply N.eqb_neq; lia.
Qed.

Lemma all_digits_rstrip (s : string) : all_digits s = true → Py.rstrip s = s.
Proof.
  induction s as [|c r IH]; simpl; [done|].
  intros [Hc Hr]%andb_true_iff. rewrite (IH Hr).
  destruct r; [|done]. by rewrite (isdigit_not_isspace c Hc).
Qed.

Lemma all_digits_strip (s : string) : all_digits s = true → Py.strip s = s.
Proof.
  intros Hs. unfold Py.strip.
  assert (Py.lstrip s = s) as ->; [|by apply all_digits_rstrip].
  destruct s as [|c r]; simpl in *; [done|].
  apply andb_true_iff in Hs as [Hc _]. by rewrite (isdigit_not_isspace c Hc).
Qed.

(** X1. Whatever the random draws, a generated code has six characters, all
    decimal digits, and is left as it is by [strip]. *)
Theorem generate_code_format (g : Rng) :
  let code := fst (generate_code g) in
  String.length code = 6%nat
  ∧ all_digits code = true
  ∧ Py.strip code = code.
Proof.
  intros code. destruct (random_digits_spec 6 g) as [Hlen Hdig].
  split; [done|]. split; [done|]. by apply all_digits_strip.
Qed.

(** ** Creating a classroom: the document afterwards *)

#[local] Arguments generate_code : simpl never.

Lemma teacher_name_known (session : Session) :
  Py.truthy_opt (user_name session) = true →
  ∃ name, user_name session = Some name ∧ name ≠ "".
Proof.
  destruct (user_name session) as [name|]; simpl; [|done].
  intros Ht. exists name. split; [done|]. by intros ->.
Qed.

Lemma create_classroom_saved cid g db session req :
  role session = Some "Teacher" →
  Py.truthy_opt (user_name session) = true →
  ∃ c, db_out (create_classroom cid g db session req) = save_classroom db cid c.
Proof.
  intros Hr Hn. unfold create_classroom. simpl.
  rewrite Hr, Hn, bool_decide_true by done. simpl. by eexists.
Qed.

(** X3. Only a session whose role is ["Teacher"] and whose name is non-empty
    creates a classroom; any other request is sent to the login page with a
    warning and changes neither the document nor the session. *)
Theorem create_classroom_requires_teacher cid g db session req :
  let o := create_classroom cid g db session req in
  let authorised := role session = Some "Teacher"
                    ∧ Py.truthy_opt (user_name session) = true in
  (resp o = Redirect ep_login ↔ ¬ authorised)
  ∧ (¬ authorised →
     o = {| resp := Redirect ep_login; db_out := db; session_out := session;
            flashes := [flash_teacher_only] |})
  ∧ (authorised →
     resp o = Redirect ep_teacher_dashboard ∧ session_out o = session
     ∧ is_Some (dict_get cid (classrooms (db_out o)))).
Proof.
  intros o authorised. subst o authorised.
  destruct (decide (role session = Some "Teacher"
                    ∧ Py.truthy_opt (user_name session) = true)) as [[Hr Hn]|Hno].
  - split; [|split; [tauto|]].
    + unfold create_classroom. simpl.
      rewrite Hr, Hn, bool_decide_true by done. simpl. split; [done | tauto].
    + intros _. split; [|split].
      * unfold create_classroom. simpl. by rewrite Hr, Hn, bool_decide_true.
      * unfold create_classroom. simpl. by rewrite Hr, Hn, bool_decide_true.
      * rewrite create_classroom_stored by done. by eexists.
  - rewrite create_classroom_denied by done. simpl. tauto.
Qed.

(** X4. A teacher's creation with a fresh id puts the new classroom last in
    the document, with empty content, and leaves every other entry as it
    was. *)
Theorem create_classroom_appends cid g db session req :
  role session = Some "Teacher" →
  Py.truthy_opt (user_name session) = true →
  dict_get cid (classrooms db) = None →
  ∃ c, classrooms (db_out (create_classroom cid g db session req))
       = classrooms db ++ [(cid, c)]
       ∧ c_id c = cid
       ∧ Some (c_teacher_name c) = user_name session
       ∧ c_name c = Py.strip (form_get_default "classroom_name" "Untitled Classroom" req)
       ∧ c_announcements c = [] ∧ c_lessons c = [] ∧ c_assignments c = []
       ∧ ∀ k, k ≠ cid →
              dict_get k (classrooms (db_out (create_classroom cid g db session req)))
              = dict_get k (classrooms db).
Proof.
  intros Hr Hn Hfresh.
  destruct (teacher_name_known _ Hn) as (name & Hname & _).
  unfold create_classroom. simpl.
  rewrite Hr, Hn, bool_decide_true by done. simpl.
  eexists. split; [by apply dict_set_fresh|]. simpl.
  split; [done|]. split; [by rewrite Hname|].
  repeat (split; [done|]).
  intros k Hk. by apply dict_get_set_ne.
Qed.

Lemma create_classroom_appends_witness :
  ∃ c, classrooms (db_out (create_classroom "c9" (λ n, n) ex_db ex_ava
                             (ex_create " Botany " "Public")))
       = classrooms ex_db ++ [("c9", c)]
       ∧ c_id c = "c9"
       ∧ Some (c_teacher_name c) = user_name ex_ava
       ∧ c_name c = Py.strip (form_get_default "classroom_name" "Untitled Classroom"
                                (ex_create " Botany " "Public"))
       ∧ c_announcements c = [] ∧ c_lessons c = [] ∧ c_assignments c = []
       ∧ ∀ k, k ≠ "c9" →
              dict_get k (classrooms (db_out (create_classroom "c9" (λ n, n) ex_db ex_ava
                                                (ex_create " Botany " "Public"))))
              = dict_get k (classrooms ex_db).
Proof.
  apply (create_classroom_appends "c9" (λ n, n) ex_db ex_ava
           (ex_create " Botany " "Public")); reflexivity.
Defined.

(** X5. After such a creation the public directory gains the classroom
    exactly when the visibility posted is ["Public"], and the creating
    teacher's dashboard gains it in every case, both at the end. *)
Theorem create_classroom_listings cid g db session req :
  role session = Some "Teacher" →
  Py.truthy_opt (user_name session) = true →
  dict_get cid (classrooms db) = None →
  let db' := db_out (create_classroom cid g db session req) in
  ∃ c, dict_get cid (classrooms db') = Some c
       ∧ public_classrooms db'
         = (if bool_decide (form_get "visibility" req = Some "Public")
            then public_classrooms db ++ [c] else public_classrooms db)
       ∧ classrooms_of (user_name session) db'
         = classrooms_of (user_name session) db ++ [c].
Proof.
  intros Hr Hn Hfresh db'.
  destruct (teacher_name_known _ Hn) as (name & Hname & _).
  subst db'. unfold create_classroom. simpl.
  rewrite Hr, Hn, bool_decide_true by done. simpl.
  eexists. split; [apply dict_get_set_eq|].
  unfold public_classrooms, classrooms_of, dict_values. simpl.
  rewrite dict_set_fresh by done. rewrite fmap_app, !filter_app. simpl.
  split.
  - unfold form_get_default. destruct (form_get "visibility" req) as [v|]; simpl.
    + destruct (decide (v = "Public")) as [->|Hv].
      * rewrite !bool_decide_true by done. simpl.
        by rewrite filter_cons_True by done.
      * rewrite (bool_decide_false (v = "Public")) by done.
        rewrite (bool_decide_false (Some v = Some "Public")) by congruence.
        simpl. rewrite filter_cons_False by done. by rewrite app_nil_r.
    + rewrite filter_cons_False by done. by rewrite app_nil_r.
  - rewrite filter_cons_True; [done|]. simpl. by rewrite Hname.
Qed.

Lemma create_classroom_listings_witness :
  let db' := db_out (create_classroom "c9" (λ n, n) ex_db ex_ava
                       (ex_create " Botany " "Public")) in
  ∃ c, dict_get "c9" (classrooms db') = Some c
       ∧ public_classrooms db'
         = (if bool_decide (form_get "visibility" (ex_create " Botany " "Public")
                            = Some "Public")
            then public_classrooms ex_db ++ [c] else public_classrooms ex_db)
       ∧ classrooms_of (user_name ex_ava) db'
         = classrooms_of (user_name ex_ava) ex_db ++ [c].
Proof.
  apply (create_classroom_listings "c9" (λ n, n) ex_db ex_ava
           (ex_create " Botany " "Public")); reflexivity.
Defined.

Lemma find_by_code_exists code db c :
  c ∈ dict_values (classrooms db) → code_matches code c →
  ∃ found, find_by_code code db = Some found.
Proof.
  intros Hin Hm. unfold find_by_code.
  pose proof (find_first
    (λ c, bool_decide (c_visibility c = "Private") && bool_decide (c_code c = code))
    (dict_values (classrooms db))) as Hfirst.
  destruct (find _ _) as [found|]; [by exists found|].
  apply code_matches_true in Hm. by rewrite (Hfirst c Hin) in Hm.
Qed.

(** X6. A classroom created with visibility ["Private"] (or none posted) can
    be joined with its generated code, blanks around it allowed: the join
    resolves to a private classroom carrying that code and records its id.
    It is the new classroom whenever the id was fresh and no older classroom
    carried the same code. *)
Theorem create_then_join cid g db session req joiner jreq :
  role session = Some "Teacher" →
  Py.truthy_opt (user_name session) = true →
  form_get "visibility" req = None ∨ form_get "visibility" req = Some "Private" →
  Py.strip (form_get_default "code" "" jreq) = fst (generate_code g) →
  let code := fst (generate_code g) in
  let db' := db_out (create_classroom cid g db session req) in
  let o := join_classroom db' joiner jreq in
  ∃ found,
    resp o = Redirect (ep_classroom_page (c_id found))
    ∧ found ∈ dict_values (classrooms db')
    ∧ code_matches code found
    ∧ c_id found ∈ default [] (joined_classrooms (session_out o))
    ∧ (dict_get cid (classrooms db) = None →
       (∀ c, c ∈ dict_values (classrooms db) → ¬ code_matches code c) →
       c_id found = cid ∧ dict_get cid (classrooms db') = Some found).
Proof.
  intros Hr Hn Hv Hcode code db' o.
  assert (∃ c, dict_get cid (classrooms db') = Some c ∧ code_matches code c
               ∧ c_id c = cid) as (c & Hg & Hm & Hid).
  { subst db'. rewrite create_classroom_stored by done.
    eexists. split; [done|]. unfold code_matches, form_get_default. simpl.
    destruct Hv as [-> | ->]; simpl; by rewrite ?bool_decide_true. }
  destruct (find_by_code_exists code db' c) as [found Hf];
    [by eapply dict_get_values | done |].
  destruct (find_by_code_Some _ _ _ Hf) as [Hfm Hfin].
  exists found. subst o. rewrite (join_classroom_found _ _ _ found) by by rewrite Hcode.
  simpl. split; [done|]. split; [done|]. split; [done|]. split.
  { case_bool_decide; [done|]. apply elem_of_app. right. left. }
  intros Hfresh Hold.
  assert (found = c) as ->; [|done].
  assert (classrooms db' = classrooms db ++ [(cid, c)]) as Hdb'.
  { destruct (create_classroom_saved cid g db session req) as (c0 & Hc0);
      [done..|]. subst db'. rewrite Hc0 in Hg |- *. simpl in *.
    rewrite dict_get_set_eq in Hg. injection Hg as ->.
    by apply dict_set_fresh. }
  unfold dict_values in Hfin. rewrite Hdb', fmap_app in Hfin.
  apply elem_of_app in Hfin as [Hin | Hin%list_elem_of_singleton]; [|done].
  by destruct (Hold found Hin).
Qed.

Lemma create_then_join_witness :
  let code := fst (generate_code (λ n, n)) in
  let db' := db_out (create_classroom "c9" (λ n, n) ex_db ex_ava
                       (ex_create "Botany" "Private")) in
  let o := join_classroom db' ex_cid (ex_join " 012345 ") in
  ∃ found,
    resp o = Redirect (ep_classroom_page (c_id found))
    ∧ found ∈ dict_values (classrooms db')
    ∧ code_matches code found
    ∧ c_id found ∈ default [] (joined_classrooms (session_out o))
    ∧ (dict_get "c9" (classrooms ex_db) = None →
       (∀ c, c ∈ dict_values (classrooms ex_db) → ¬ code_matches code c) →
       c_id found = "c9" ∧ dict_get "c9" (classrooms db') = Some found).
Proof.
  apply (create_then_join "c9" (λ n, n) ex_db ex_ava (ex_create "Botany" "Private")
           ex_cid (ex_join " 012345 "));
    [reflexivity | reflexivity | right; reflexivity | reflexivity].
Defined.

(** ** An invariant of the reachable documents *)

Lemma created_sound cid g db session req c :
  role session = Some "Teacher" → Py.truthy_opt (user_name session) = true →
  dict_get cid (classrooms (db_out (create_classroom cid g db session req))) = Some c →
  classroom_sound c.
Proof.
  intros Hr Hn. rewrite create_classroom_stored by done.
  destruct (teacher_name_known _ Hn) as (name & Hname & Hne).
  intros Heq. apply (inj Some) in Heq. subst c. unfold classroom_sound.
  cbn [c_visibility c_code c_assignments c_teacher_name]. rewrite Hname.
  change (default "" (Some name)) with name.
  repeat case_bool_decide; try congruence;
    (split; [auto|]); (split; [auto using generate_code_six_digits|]);
    (split; [done|]); done.
Qed.

Lemma post_action_sound class_id c user db req db' fl :
  classroom_sound c →
  Forall (λ e, classroom_sound e.2) (classrooms db) →
  post_action class_id c user db req = inl (db', fl) →
  Forall (λ e, classroom_sound e.2) (classrooms db').
Proof.
  intros (Hvis & Hcode & Hpub & Hname) Hall. unfold post_action.
  assert (∀ l, c_visibility c = "Private" →
               classroom_sound (with_assignments c l)) as Hasg.
  { intros l Hpriv. unfold classroom_sound. simpl.
    repeat (split; [done|]). split; [|done]. intros Hp. congruence. }
  repeat match goal with
         | |- context [bool_decide (?a = Some ?s)] =>
             destruct (bool_decide (a = Some s))
         end.
  - destruct (is_owning_teacher user c); [|by intros [= <- <-]].
    destruct (Py.truthy _); intros [= <- <-]; [|done].
    by apply dict_set_Forall.
  - destruct (is_owning_teacher user c); intros [= <- <-]; [|done].
    by apply dict_set_Forall.
  - destruct (is_owning_teacher user c); simpl; [|by intros [= <- <-]].
    case_bool_decide as Hpriv; intros [= <- <-]; [|done].
    apply dict_set_Forall; [|done]. by apply Hasg.
  - destruct (submit_allowed user class_id c) eqn:Hs; [|by intros [= <- <-]].
    apply andb_true_iff in Hs as [Hpriv%bool_decide_eq_true _].
    destruct (assignment_idx req) as [i|]; [|done].
    destruct (_ && _); intros [= <- <-]; [|done].
    apply dict_set_Forall; [|done]. by apply Hasg.
  - by intros [= <- <-].
Qed.

(** X7. In every document the application can produce from the empty one,
    no id occurs twice, each classroom is stored under its own id with
    visibility ["Public"] or ["Private"] and a non-empty teacher name, its
    code is empty or six digits, and a public classroom has no code and no
    assignments. *)
Theorem reachable_sound (db : Db) :
  reachable db →
  store_wf db ∧ Forall (λ e, classroom_sound e.2) (classrooms db).
Proof.
  induction 1 as [|cid g db session req _ [IHwf IHs]
                  |class_id db session req o _ [IHwf IHs] Hpage].
  - split; [apply store_wf_empty | apply Forall_nil_2].
  - split; [by apply create_classroom_wf|].
    destruct (decide (role session = Some "Teacher"
                      ∧ Py.truthy_opt (user_name session) = true)) as [[Hr Hn]|Hno].
    + pose proof (created_sound cid g db session req) as Hnew.
      rewrite create_classroom_stored in Hnew by done.
      unfold create_classroom. simpl.
      rewrite Hr, Hn, bool_decide_true by done. simpl.
      apply dict_set_Forall; [|done]. simpl.
      specialize (Hnew _ Hr Hn eq_refl).
      destruct (bool_decide (form_get_default "visibility" "Private" req = "Public"));
        exact Hnew.
    + by rewrite create_classroom_denied.
  - split; [by eapply classroom_page_wf|].
    unfold classroom_page in Hpage.
    destruct (dict_get class_id (classrooms db)) as [c|] eqn:Hg;
      [|by injection Hpage as <-].
    destruct (negb _); [by injection Hpage as <-|].
    destruct (method req); [by injection Hpage as <-|].
    destruct (post_action _ _ _ _ _) as [[db' fl]|e] eqn:Hp; [|done].
    injection Hpage as <-. simpl.
    eapply post_action_sound; [|done|done].
    by apply (dict_get_Forall (λ e, classroom_sound e.2) class_id c (classrooms db)).
Qed.

Lemma reachable_sound_witness :
  let db := db_out (create_classroom "c9" (λ n, n) empty_db ex_ava
                      (ex_create "Botany" "private")) in
  store_wf db ∧ Forall (λ e, classroom_sound e.2) (classrooms db).
Proof.
  apply (reachable_sound
           (db_out (create_classroom "c9" (λ n, n) empty_db ex_ava
                      (ex_create "Botany" "private")))).
  apply reach_create, reach_init.
Defined.

(** ** The classroom page only adds content *)

Lemma assignments_grow_refl (l : list Assignment) : Forall2 assignment_grows l l.
Proof. induction l; constructor; [by repeat split | done]. Qed.

Lemma classroom_grows_refl (c : Classroom) : classroom_grows c c.
Proof.
  unfold classroom_grows. repeat (split; [done|]).
  exists [], (c_assignments c). split; [done | apply assignments_grow_refl].
Qed.

Lemma post_action_grows class_id c user db req db' fl :
  post_action class_id c user db req = inl (db', fl) →
  db' = db ∨ ∃ c', db' = save_classroom db class_id c' ∧ classroom_grows c c'.
Proof.
  unfold post_action.
  repeat match goal with
         | |- context [bool_decide (?a = Some ?s)] =>
             destruct (bool_decide (a = Some s))
         end.
  - destruct (is_owning_teacher user c); [|intros [= <- <-]; by left].
    destruct (Py.truthy _); intros [= <- <-]; [|by left].
    right. eexists. split; [done|]. unfold classroom_grows. simpl.
    repeat (split; [done|]). split; [by apply suffix_cons_r|]. split; [done|].
    exists [], (c_assignments c). split; [done | apply assignments_grow_refl].
  - destruct (is_owning_teacher user c); intros [= <- <-]; [|by left].
    right. eexists. split; [done|]. unfold classroom_grows. simpl.
    repeat (split; [done|]). split; [by apply suffix_cons_r|].
    exists [], (c_assignments c). split; [done | apply assignments_grow_refl].
  - destruct (_ && _); intros [= <- <-]; [|by left].
    right. eexists. split; [done|]. unfold classroom_grows. simpl.
    repeat (split; [done|]).
    eexists [_], (c_assignments c). split; [done | apply assignments_grow_refl].
  - destruct (submit_allowed user class_id c); [|intros [= <- <-]; by left].
    destruct (assignment_idx req) as [i|]; [|done].
    destruct (_ && _); intros [= <- <-]; [|by left].
    right. eexists. split; [done|]. unfold classroom_grows. simpl.
    repeat (split; [done|]).
    eexists [], _. split; [done|].
    apply Forall2_alter_r; [apply assignments_grow_refl|].
    intros a a' _ _ (Ht & Hd & Hs). unfold assignment_grows. simpl.
    split; [done|]. split; [done|]. by apply prefix_app_r.
  - intros [= <- <-]. by left.
Qed.

(** X8. A request to the classroom page that completes never touches the
    session, never adds, removes or reorders classrooms, and changes at most
    the classroom addressed. That classroom keeps its id, name, teacher,
    visibility and code, and only gains content: earlier announcements and
    lessons stay behind any new one, and every earlier assignment stays, in
    order, with its title, its description and its earlier submissions. *)
Theorem classroom_page_only_adds class_id db session req o :
  classroom_page class_id db session req = Done o →
  session_out o = session
  ∧ dict_keys (classrooms (db_out o)) = dict_keys (classrooms db)
  ∧ (∀ k, k ≠ class_id →
          dict_get k (classrooms (db_out o)) = dict_get k (classrooms db))
  ∧ (∀ c, dict_get class_id (classrooms db) = Some c →
          ∃ c', dict_get class_id (classrooms (db_out o)) = Some c'
                ∧ classroom_grows c c').
Proof.
  unfold classroom_page.
  destruct (dict_get class_id (classrooms db)) as [c|] eqn:Hg.
  2:{ intros [= <-]. simpl. by rewrite Hg. }
  assert (∀ db' fl r,
    (db' = db ∨ ∃ c', db' = save_classroom db class_id c' ∧ classroom_grows c c') →
    let o := {| resp := r; db_out := db'; session_out := session; flashes := fl |} in
    session_out o = session
    ∧ dict_keys (classrooms (db_out o)) = dict_keys (classrooms db)
    ∧ (∀ k, k ≠ class_id →
            dict_get k (classrooms (db_out o)) = dict_get k (classrooms db))
    ∧ (∀ c0, Some c = Some c0 →
             ∃ c', dict_get class_id (classrooms (db_out o)) = Some c'
                   ∧ classroom_grows c0 c')) as Hcase.
  { intros db' fl r [-> | (c' & -> & Hgrow)]; simpl.
    - split; [done|]. split; [done|]. split; [done|].
      intros c0 [= <-]. exists c. split; [done | apply classroom_grows_refl].
    - split; [done|]. split; [by eapply dict_set_keys_present|].
      split; [intros k Hk; by apply dict_get_set_ne|].
      intros c0 [= <-]. exists c'. split; [apply dict_get_set_eq | done]. }
  destruct (negb _); [intros [= <-]; apply Hcase; by left|].
  destruct (method req); [intros [= <-]; apply Hcase; by left|].
  destruct (post_action _ _ _ _ _) as [[db' fl]|e] eqn:Hp; [|done].
  intros [= <-]. apply Hcase. by eapply post_action_grows.
Qed.

Lemma classroom_page_only_adds_witness :
  ∃ o, classroom_page "c1" ex_db ex_ava ex_announce = Done o
    ∧ session_out o = ex_ava
    ∧ dict_keys (classrooms (db_out o)) = dict_keys (classrooms ex_db)
    ∧ (∀ k, k ≠ "c1" →
            dict_get k (classrooms (db_out o)) = dict_get k (classrooms ex_db))
    ∧ (∀ c, dict_get "c1" (classrooms ex_db) = Some c →
            ∃ c', dict_get "c1" (classrooms (db_out o)) = Some c'
                  ∧ classroom_grows c c').
Proof.
  eexists. split; [reflexivity|].
  apply (classroom_page_only_adds "c1" ex_db ex_ava ex_announce). reflexivity.
Defined.

(** ** The teacher's posts *)

Lemma owner_view_allowed user class_id c :
  is_owning_teacher user c = true → view_allowed user class_id c = true.
Proof. intros Ho. unfold view_allowed. rewrite Ho. by case_bool_decide. Qed.

Lemma classroom_page_post_denied class_id db session req c fl :
  dict_get class_id (classrooms db) = Some c →
  method req = POST →
  post_action class_id c (current_user session) db req = inl (db, [fl]) →
  ∃ o, classroom_page class_id db session req = Done o
       ∧ db_out o = db
       ∧ (flashes o = [flash_private] ∨ flashes o = [fl]).
Proof.
  intros Hg Hm Hp.
  destruct (view_allowed (current_user session) class_id c) eqn:Hv.
  - rewrite (classroom_page_post _ _ _ _ c), Hp by done.
    eexists. split; [done|]. simpl. auto.
  - rewrite (classroom_page_refused _ _ _ _ c) by done.
    eexists. split; [done|]. simpl. auto.
Qed.

(** X9. A lesson posted by the owning teacher is stored at the head of the
    lessons with its title and body stripped, whatever they are: there is no
    check for blank fields, and an absent title becomes ["Untitled"]. Posted
    by anyone else it is refused and the document is unchanged. *)
Theorem post_lesson_rule class_id db session req c :
  dict_get class_id (classrooms db) = Some c →
  method req = POST →
  form_get "action" req = Some "post_lesson" →
  let user := current_user session in
  let lesson := {| les_title := Py.strip (form_get_default "lesson_title" "Untitled" req);
                   les_body := Py.strip (form_get_default "lesson_body" "" req) |} in
  (owning_teacher user c →
   ∃ o c', classroom_page class_id db session req = Done o
           ∧ flashes o = [flash_lesson_posted]
           ∧ dict_get class_id (classrooms (db_out o)) = Some c'
           ∧ c_lessons c' = lesson :: c_lessons c
           ∧ with_lessons c' (c_lessons c) = c
           ∧ (form_get "lesson_title" req = None → les_title lesson = "Untitled"))
  ∧ (¬ owning_teacher user c →
     ∃ o, classroom_page class_id db session req = Done o
          ∧ db_out o = db
          ∧ (flashes o = [flash_private] ∨ flashes o = [flash_lesson_denied])).
Proof.
  intros Hg Hm Ha user lesson. split.
  - intros Ho%is_owning_teacher_true.
    rewrite (classroom_page_post _ _ _ _ c) by auto using owner_view_allowed.
    pick_action Ha. fold user. rewrite Ho.
    eexists _, _. split; [done|]. simpl. split; [done|].
    split; [apply dict_get_set_eq|]. simpl. split; [done|].
    split; [by destruct c|].
    unfold form_get_default. by intros ->.
  - intros Ho%is_owning_teacher_false.
    apply (classroom_page_post_denied _ _ _ _ c); [done..|].
    pick_action Ha. fold user. by rewrite Ho.
Qed.

Lemma post_lesson_rule_witness :
  let user := current_user ex_ava in
  let lesson := {| les_title := Py.strip (form_get_default "lesson_title" "Untitled"
                                            ex_post_lesson);
                   les_body := Py.strip (form_get_default "lesson_body" ""
                                           ex_post_lesson) |} in
  (owning_teacher user ex_algebra →
   ∃ o c', classroom_page "c1" ex_db ex_ava ex_post_lesson = Done o
           ∧ flashes o = [flash_lesson_posted]
           ∧ dict_get "c1" (classrooms (db_out o)) = Some c'
           ∧ c_lessons c' = lesson :: c_lessons ex_algebra
           ∧ with_lessons c' (c_lessons ex_algebra) = ex_algebra
           ∧ (form_get "lesson_title" ex_post_lesson = None →
              les_title lesson = "Untitled"))
  ∧ (¬ owning_teacher user ex_algebra →
     ∃ o, classroom_page "c1" ex_db ex_ava ex_post_lesson = Done o
          ∧ db_out o = ex_db
          ∧ (flashes o = [flash_private] ∨ flashes o = [flash_lesson_denied])).
Proof.
  apply (post_lesson_rule "c1" ex_db ex_ava ex_post_lesson ex_algebra); reflexivity.
Defined.

(** X10. An assignment is stored only for the owning teacher of a private
    classroom: it goes to index 0 with no submissions, and every earlier
    assignment moves from index [j] to index [j + 1]. In any other case,
    the owner of a public classroom included, the request is refused and the
    document is unchanged. *)
Theorem post_assignment_rule class_id db session req c :
  dict_get class_id (classrooms db) = Some c →
  method req = POST →
  form_get "action" req = Some "post_assignment" →
  let user := current_user session in
  let new := {| asg_title := Py.strip (form_get_default "assignment_title" "Assignment" req);
                asg_desc := Py.strip (form_get_default "assignment_desc" "" req);
                asg_submissions := [] |} in
  (owning_teacher user c ∧ c_visibility c = "Private" →
   ∃ o c', classroom_page class_id db session req = Done o
           ∧ flashes o = [flash_assignment_posted]
           ∧ dict_get class_id (classrooms (db_out o)) = Some c'
           ∧ with_assignments c' (c_assignments c) = c
           ∧ c_assignments c' !! 0%nat = Some new
           ∧ ∀ j, c_assignments c' !! S j = c_assignments c !! j)
  ∧ (¬ (owning_teacher user c ∧ c_visibility c = "Private") →
     ∃ o, classroom_page class_id db session req = Done o
          ∧ db_out o = db
          ∧ (flashes o = [flash_private] ∨ flashes o = [flash_assignment_denied])).
Proof.
  intros Hg Hm Ha user new. split.
  - intros [Ho%is_owning_teacher_true Hpriv].
    rewrite (classroom_page_post _ _ _ _ c) by auto using owner_view_allowed.
    pick_action Ha. fold user. rewrite Ho, (bool_decide_true _ Hpriv).
    eexists _, _. split; [done|]. simpl. split; [done|].
    split; [apply dict_get_set_eq|]. simpl.
    split; [by destruct c|]. done.
  - intros Hno.
    apply (classroom_page_post_denied _ _ _ _ c); [done..|].
    pick_action Ha. fold user.
    destruct (is_owning_teacher user c) eqn:Ho; [|done].
    apply is_owning_teacher_true in Ho.
    rewrite bool_decide_false; [done|]. tauto.
Qed.

Lemma post_assignment_rule_witness :
  let user := current_user ex_ava in
  let new := {| asg_title := Py.strip (form_get_default "assignment_title" "Assignment"
                                         ex_post_assignment);
                asg_desc := Py.strip (form_get_default "assignment_desc" ""
                                        ex_post_assignment);
                asg_submissions := [] |} in
  (owning_teacher user ex_chess ∧ c_visibility ex_chess = "Private" →
   ∃ o c', classroom_page "c2" ex_db ex_ava ex_post_assignment = Done o
           ∧ flashes o = [flash_assignment_posted]
           ∧ dict_get "c2" (classrooms (db_out o)) = Some c'
           ∧ with_assignments c' (c_assignments ex_chess) = ex_chess
           ∧ c_assignments c' !! 0%nat = Some new
           ∧ ∀ j, c_assignments c' !! S j = c_assignments ex_chess !! j)
  ∧ (¬ (owning_teacher user ex_chess ∧ c_visibility ex_chess = "Private") →
     ∃ o, classroom_page "c2" ex_db ex_ava ex_post_assignment = Done o
          ∧ db_out o = ex_db
          ∧ (flashes o = [flash_private] ∨ flashes o = [flash_assignment_denied])).
Proof.
  apply (post_assignment_rule "c2" ex_db ex_ava ex_post_assignment ex_chess);
    reflexivity.
Defined.

(** X11. An announcement of the owning teacher is stored, stripped, at the
    head of the announcements when something is left after stripping;
    a blank or absent text changes nothing and flashes nothing. *)
Theorem owner_announcement_unless_blank class_id db session req c :
  dict_get class_id (classrooms db) = Some c →
  method req = POST →
  form_get "action" req = Some "post_announcement" →
  owning_teacher (current_user session) c →
  let text := Py.strip (form_get_default "announcement" "" req) in
  ∃ o, classroom_page class_id db session req = Done o
    ∧ (text ≠ "" →
       flashes o = [flash_announcement_posted]
       ∧ ∃ c', dict_get class_id (classrooms (db_out o)) = Some c'
               ∧ c_announcements c' = {| ann_text := text |} :: c_announcements c
               ∧ with_announcements c' (c_announcements c) = c)
    ∧ (text = "" →
       db_out o = db ∧ flashes o = []
       ∧ resp o = RenderTemplate "classroom.html" (Some c) (current_user session)).
Proof.
  intros Hg Hm Ha Ho%is_owning_teacher_true text.
  rewrite (classroom_page_post _ _ _ _ c) by auto using owner_view_allowed.
  pick_action Ha. rewrite Ho. fold text.
  destruct text as [|ch rest] eqn:Ht; simpl.
  - eexists. split; [done|]. simpl. split; [done|]. intros _. by rewrite Hg.
  - eexists. split; [done|]. simpl. split; [|done]. intros _.
    split; [done|]. eexists. split; [apply dict_get_set_eq|]. simpl.
    split; [done | by destruct c].
Qed.

Lemma owner_announcement_unless_blank_witness :
  let text := Py.strip (form_get_default "announcement" "" ex_announce) in
  ∃ o, classroom_page "c1" ex_db ex_ava ex_announce = Done o
    ∧ (text ≠ "" →
       flashes o = [flash_announcement_posted]
       ∧ ∃ c', dict_get "c1" (classrooms (db_out o)) = Some c'
               ∧ c_announcements c'
                 = {| ann_text := text |} :: c_announcements ex_algebra
               ∧ with_announcements c' (c_announcements ex_algebra) = ex_algebra)
    ∧ (text = "" →
       db_out o = ex_db ∧ flashes o = []
       ∧ resp o = RenderTemplate "classroom.html" (Some ex_algebra)
                    (current_user ex_ava)).
Proof.
  apply (owner_announcement_unless_blank "c1" ex_db ex_ava ex_announce ex_algebra);
    [reflexivity | reflexivity | reflexivity | split; reflexivity].
Defined.

(** X12. A POST to a classroom the requester may view whose [action] is
    absent or is none of the four known actions changes nothing, flashes
    nothing and renders the page. *)
Theorem unknown_action_ignored class_id db session req c :
  dict_get class_id (classrooms db) = Some c →
  view_allowed (current_user session) class_id c = true →
  method req = POST →
  form_get "action" req ≠ Some "post_announcement" →
  form_get "action" req ≠ Some "post_lesson" →
  form_get "action" req ≠ Some "post_assignment" →
  form_get "action" req ≠ Some "submit_assignment" →
  classroom_page class_id db session req
  = Done {| resp := RenderTemplate "classroom.html" (Some c) (current_user session);
            db_out := db; session_out := session; flashes := [] |}.
Proof.
  intros Hg Hv Hm H1 H2 H3 H4.
  rewrite (classroom_page_post _ _ _ _ c) by done.
  unfold post_action. rewrite !bool_decide_false by done. by rewrite Hg.
Qed.

Lemma unknown_action_ignored_witness :
  classroom_page "c1" ex_db ex_ben {| method := POST; form := [("action", "delete")] |}
  = Done {| resp := RenderTemplate "classroom.html" (Some ex_algebra) (current_user ex_ben);
            db_out := ex_db; session_out := ex_ben; flashes := [] |}.
Proof.
  apply (unknown_action_ignored "c1" ex_db ex_ben
           {| method := POST; form := [("action", "delete")] |} ex_algebra);
    try reflexivity; discriminate.
Defined.

(** ** Unknown classrooms *)

Lemma post_action_never_not_found class_id c user db req db' fl :
  post_action class_id c user db req = inl (db', fl) → flash_not_found ∉ fl.
Proof.
  unfold post_action.
  repeat match goal with
         | |- context [if ?b then _ else _] => destruct b
         | |- context [match ?o with Some _ => _ | None => _ end] => destruct o
         end;
    intros [= <- <-]; try apply not_elem_of_nil;
    intros [= ]%list_elem_of_singleton.
Qed.

(** X13. Both classroom routes signal "not found" exactly when the id is
    not a key of the document: the page by its flashed message (and then it
    redirects to the index, the document unchanged), [info.json] by the
    status 404; for a known id [info.json] answers 200. *)
Theorem not_found_iff_unknown_id class_id db session req :
  (∀ o, classroom_page class_id db session req = Done o →
        (flash_not_found ∈ flashes o ↔ class_id ∉ dict_keys (classrooms db)))
  ∧ (class_id ∉ dict_keys (classrooms db) →
     classroom_page class_id db session req
     = Done {| resp := Redirect ep_index; db_out := db; session_out := session;
               flashes := [flash_not_found] |}
     ∧ classroom_info_json class_id db session
       = Jsonify [("error", JStr "not found")] 404)
  ∧ (class_id ∈ dict_keys (classrooms db) →
     ∃ info, classroom_info_json class_id db session = Jsonify info 200).
Proof.
  unfold classroom_page, classroom_info_json.
  destruct (dict_get class_id (classrooms db)) as [c|] eqn:Hg.
  - assert (class_id ∈ dict_keys (classrooms db)) as Hin.
    { apply dec_stable. intros Hn%dict_get_None. congruence. }
    split; [|split; [done|]].
    + intros o Ho. split; [|done]. intros Hfl. exfalso.
      destruct (negb _).
      { injection Ho as <-. simpl in Hfl.
        by apply list_elem_of_singleton in Hfl. }
      destruct (method req).
      { injection Ho as <-. by apply elem_of_nil in Hfl. }
      destruct (post_action _ _ _ _ _) as [[db' fl]|e] eqn:Hp; [|done].
      injection Ho as <-. by eapply post_action_never_not_found.
    + intros _. destruct (negb _); eauto.
  - apply dict_get_None in Hg. split; [|split; [done|done]].
    intros o [= <-]. simpl. split; [done|]. intros _. left.
Qed.

(** ** The index field of a submission *)

(** X14. For a requester permitted to submit, a request without the field
    [assignment_idx] is answered "Invalid assignment." (the default is -1)
    with the document unchanged, while a field that [int] cannot read makes
    the handler die with [ValueError]. *)
Theorem submit_index_field class_id db session req c :
  dict_get class_id (classrooms db) = Some c →
  method req = POST →
  form_get "action" req = Some "submit_assignment" →
  submit_allowed (current_user session) class_id c = true →
  (form_get "assignment_idx" req = None →
   classroom_page class_id db session req
   = Done {| resp := RenderTemplate "classroom.html" (Some c) (current_user session);
             db_out := db; session_out := session;
             flashes := [flash_invalid_assignment] |})
  ∧ (∀ s, form_get "assignment_idx" req = Some s → Py.int s = None →
          classroom_page class_id db session req = Raised ValueError).
Proof.
  intros Hg Hm Ha Hs.
  rewrite (classroom_page_post _ _ _ _ c) by auto using submit_allowed_view.
  split.
  - intros Hnone.
    rewrite (post_action_submit_out_of_range _ _ _ _ _ (-1)); [by rewrite Hg|done..| |lia].
    unfold assignment_idx. by rewrite Hnone.
  - intros s Hsome Hint.
    rewrite post_action_submit_malformed; [done..|].
    unfold assignment_idx. by rewrite Hsome.
Qed.

Lemma submit_index_field_witness :
  (form_get "assignment_idx" (ex_submit "0x1") = None →
   classroom_page "c1" ex_db ex_ben (ex_submit "0x1")
   = Done {| resp := RenderTemplate "classroom.html" (Some ex_algebra)
                       (current_user ex_ben);
             db_out := ex_db; session_out := ex_ben;
             flashes := [flash_invalid_assignment] |})
  ∧ (∀ s, form_get "assignment_idx" (ex_submit "0x1") = Some s → Py.int s = None →
          classroom_page "c1" ex_db ex_ben (ex_submit "0x1") = Raised ValueError).
Proof.
  apply (submit_index_field "c1" ex_db ex_ben (ex_submit "0x1") ex_algebra);
    reflexivity.
Defined.

(** X15. Two permitted submissions to the same assignment, one request after
    the other, are stored in that order after the submissions already
    there, each under the name of its own session. *)
Theorem submissions_keep_order class_id db session1 session2 req1 req2 c (i : Z) a :
  dict_get class_id (classrooms db) = Some c →
  method req1 = POST → form_get "action" req1 = Some "submit_assignment" →
  method req2 = POST → form_get "action" req2 = Some "submit_assignment" →
  submit_allowed (current_user session1) class_id c = true →
  submit_allowed (current_user session2) class_id c = true →
  assignment_idx req1 = Some i → assignment_idx req2 = Some i →
  0 ≤ i → c_assignments c !! Z.to_nat i = Some a →
  ∃ o1 o2 c2 a2,
    classroom_page class_id db session1 req1 = Done o1
    ∧ classroom_page class_id (db_out o1) session2 req2 = Done o2
    ∧ dict_get class_id (classrooms (db_out o2)) = Some c2
    ∧ c_assignments c2 !! Z.to_nat i = Some a2
    ∧ asg_submissions a2
      = asg_submissions a
        ++ [{| sub_student := user_name session1;
               sub_text := Py.strip (form_get_default "submission_text" "" req1) |};
            {| sub_student := user_name session2;
               sub_text := Py.strip (form_get_default "submission_text" "" req2) |}].
Proof.
  intros Hg Hm1 Ha1 Hm2 Ha2 Hs1 Hs2 Hi1 Hi2 Hpos Hlook.
  assert (0 ≤ i < Z.of_nat (length (c_assignments c))) as Hr.
  { apply lookup_lt_Some in Hlook. lia. }
  rewrite (classroom_page_post _ _ _ _ c) by auto using submit_allowed_view.
  rewrite (post_action_submit_in_range _ _ _ _ _ i) by done.
  set (c1 := with_assignments c _).
  eexists _, _, _, _. split; [reflexivity|]. cbn [db_out].
  rewrite (classroom_page_post _ _ _ _ c1);
    [|apply dict_get_set_eq | by apply submit_allowed_view | done].
  rewrite (post_action_submit_in_range _ _ _ _ _ i); [|done|done|done|].
  2:{ subst c1. simpl. by rewrite length_alter. }
  split; [reflexivity|]. simpl. split; [apply dict_get_set_eq|]. simpl.
  rewrite !list_lookup_alter_eq, Hlook. simpl. split; [done|]. simpl.
  by rewrite <- app_assoc.
Qed.

Lemma submissions_keep_order_witness :
  ∃ o1 o2 c2 a2,
    classroom_page "c1" ex_db ex_ben (ex_submit "0") = Done o1
    ∧ classroom_page "c1" (db_out o1) ex_ava (ex_submit "0") = Done o2
    ∧ dict_get "c1" (classrooms (db_out o2)) = Some c2
    ∧ c_assignments c2 !! Z.to_nat 0 = Some a2
    ∧ asg_submissions a2
      = asg_submissions {| asg_title := "HW1"; asg_desc := ""; asg_submissions := [] |}
        ++ [{| sub_student := user_name ex_ben;
               sub_text := Py.strip (form_get_default "submission_text" ""
                                       (ex_submit "0")) |};
            {| sub_student := user_name ex_ava;
               sub_text := Py.strip (form_get_default "submission_text" ""
                                       (ex_submit "0")) |}].
Proof.
  apply (submissions_keep_order "c1" ex_db ex_ben ex_ava (ex_submit "0") (ex_submit "0")
           ex_algebra 0); reflexivity.
Defined.

(** ** Logging in and out *)

Lemma truthy_nonempty (s : string) : Py.truthy s = true ↔ s ≠ "".
Proof. by destruct s. Qed.

(** X16. A login POST is accepted exactly when the stripped name is not
    empty and the role is ["Teacher"] or ["Student"]. A rejected login
    leaves the session as it was; an accepted one stores the stripped name
    and the role, keeps the joined list, and sends a teacher to the
    dashboard, which then lets them in, and a student to the index. *)
Theorem login_post_rule session req :
  method req = POST →
  let name := Py.strip (form_get_default "name" "" req) in
  let chosen := form_get "role" req in
  let accepted := name ≠ "" ∧ (chosen = Some "Teacher" ∨ chosen = Some "Student") in
  let o := login session req in
  (¬ accepted →
   o = {| site_resp := SiteRedirect ep_login; site_session := session;
          site_flashes := [flash_login_missing] |})
  ∧ (accepted →
     site_session o
     = {| user_name := Some name; role := chosen;
          joined_classrooms := Some (default [] (joined_classrooms session)) |}
     ∧ u_joined (current_user (site_session o)) = u_joined (current_user session)
     ∧ (chosen = Some "Teacher" →
        site_resp o = SiteRedirect ep_teacher_dashboard
        ∧ ∀ db, ∃ mine, site_resp (teacher_dashboard db (site_session o))
                        = SiteListing "teacher_dashboard.html" mine
                            (current_user (site_session o)))
     ∧ (chosen = Some "Student" → site_resp o = SiteRedirect ep_index)).
Proof.
  intros Hm name chosen accepted o. subst o accepted. unfold login.
  rewrite Hm. fold name chosen.
  destruct (Py.truthy name) eqn:Ht; simpl.
  - apply truthy_nonempty in Ht as Hne.
    destruct (decide (chosen = Some "Teacher")) as [Hteach|Hteach].
    + rewrite !(bool_decide_true _ Hteach). simpl. split; [tauto|]. intros _.
      split; [done|]. split; [done|]. split; [|intros; congruence].
      intros _. split; [done|]. intros db. unfold teacher_dashboard. simpl.
      rewrite Hteach, Ht. simpl. by eexists.
    + rewrite !(bool_decide_false _ Hteach). simpl.
      destruct (decide (chosen = Some "Student")) as [Hstud|Hstud].
      * rewrite (bool_decide_true _ Hstud). simpl. split; [tauto|]. intros _.
        split; [done|]. split; [done|]. split; [done|]. done.
      * rewrite (bool_decide_false _ Hstud). simpl. split; [done|]. tauto.
  - split; [done|]. intros [Hne _]. apply truthy_nonempty in Hne. congruence.
Qed.

Lemma login_post_rule_witness :
  let req := ex_login " Ava " "Teacher" in
  let name := Py.strip (form_get_default "name" "" req) in
  let chosen := form_get "role" req in
  let accepted := name ≠ "" ∧ (chosen = Some "Teacher" ∨ chosen = Some "Student") in
  let o := login ex_ben req in
  (¬ accepted →
   o = {| site_resp := SiteRedirect ep_login; site_session := ex_ben;
          site_flashes := [flash_login_missing] |})
  ∧ (accepted →
     site_session o
     = {| user_name := Some name; role := chosen;
          joined_classrooms := Some (default [] (joined_classrooms ex_ben)) |}
     ∧ u_joined (current_user (site_session o)) = u_joined (current_user ex_ben)
     ∧ (chosen = Some "Teacher" →
        site_resp o = SiteRedirect ep_teacher_dashboard
        ∧ ∀ db, ∃ mine, site_resp (teacher_dashboard db (site_session o))
                        = SiteListing "teacher_dashboard.html" mine
                            (current_user (site_session o)))
     ∧ (chosen = Some "Student" → site_resp o = SiteRedirect ep_index)).
Proof.
  apply (login_post_rule ex_ben (ex_login " Ava " "Teacher")). reflexivity.
Defined.

(** X17. Ownership goes by name alone: whoever logs in with role
    ["Teacher"] and a name that strips to a classroom's teacher name is its
    owning teacher from then on, may open it, and is served its join code
    by [info.json]. *)
Theorem login_with_teacher_name_owns session req class_id db c :
  method req = POST →
  form_get "role" req = Some "Teacher" →
  Py.strip (form_get_default "name" "" req) = c_teacher_name c →
  c_teacher_name c ≠ "" →
  dict_get class_id (classrooms db) = Some c →
  let session' := site_session (login session req) in
  owning_teacher (current_user session') c
  ∧ view_allowed (current_user session') class_id c = true
  ∧ classroom_info_json class_id db session' = Jsonify (classroom_dict c) 200.
Proof.
  intros Hm Hrole Hname Hne Hg session'.
  assert (owning_teacher (current_user session') c) as Ho.
  { subst session'. unfold login. rewrite Hm, Hrole, Hname.
    rewrite (proj2 (truthy_nonempty _) Hne). simpl. by split. }
  split; [done|]. apply is_owning_teacher_true in Ho.
  split; [by apply owner_view_allowed|].
  unfold classroom_info_json. by rewrite Hg, Ho.
Qed.

Lemma login_with_teacher_name_owns_witness :
  let session' := site_session (login ex_cid (ex_login " Ava " "Teacher")) in
  owning_teacher (current_user session') ex_algebra
  ∧ view_allowed (current_user session') "c1" ex_algebra = true
  ∧ classroom_info_json "c1" ex_db session' = Jsonify (classroom_dict ex_algebra) 200.
Proof.
  apply (login_with_teacher_name_owns ex_cid (ex_login " Ava " "Teacher") "c1" ex_db
           ex_algebra); try reflexivity. discriminate.
Defined.

(** X18. Logging out empties the session: afterwards every private
    classroom is refused, creating a classroom and the teacher dashboard
    send to the login page, and nothing of the earlier joined list is
    left. *)
Theorem logout_forgets session :
  let session' := site_session (logout session) in
  current_user session' = {| u_name := None; u_role := None; u_joined := [] |}
  ∧ site_resp (logout session) = SiteRedirect ep_index
  ∧ (∀ class_id db req c,
       dict_get class_id (classrooms db) = Some c →
       c_visibility c = "Private" →
       classroom_page class_id db session' req = landing_with_warning db session')
  ∧ (∀ cid g db req,
       create_classroom cid g db session' req
       = {| resp := Redirect ep_login; db_out := db; session_out := session';
            flashes := [flash_teacher_only] |})
  ∧ (∀ db, teacher_dashboard db session'
           = {| site_resp := SiteRedirect ep_login; site_session := session';
                site_flashes := [flash_teacher_login] |}).
Proof.
  intros session'. split; [done|]. split; [done|]. split; [|done].
  intros class_id db req c Hg Hpriv.
  apply (classroom_page_refused _ _ _ _ c); [done|].
  unfold view_allowed. by rewrite (bool_decide_true _ Hpriv).
Qed.

(** ** The listings *)

(** X19. The index features the first five classrooms of the public
    directory, all of them when there are at most five; every featured
    classroom is a public classroom of the document. *)
Theorem index_features_first_five db session :
  ∃ featured,
    index db session = SiteListing "index.html" featured (current_user session)
    ∧ public_directory db session
      = SiteListing "public_directory.html" (public_classrooms db) (current_user session)
    ∧ featured = take 5 (public_classrooms db)
    ∧ (length featured ≤ 5)%nat
    ∧ featured `prefix_of` public_classrooms db
    ∧ ((length (public_classrooms db) ≤ 5)%nat → featured = public_classrooms db)
    ∧ ∀ c, c ∈ featured →
           c_visibility c = "Public" ∧ c ∈ dict_values (classrooms db).
Proof.
  eexists. split; [reflexivity|]. split; [reflexivity|]. split; [reflexivity|].
  split; [rewrite length_take; lia|]. split; [apply prefix_take|].
  split; [intros Hle; by apply take_ge|].
  intros c Hc%subseteq_take. unfold public_classrooms in Hc.
  by apply list_elem_of_filter in Hc.
Qed.

(** X20. The teacher dashboard is served only to a session with role
    ["Teacher"] and a non-empty name, and lists exactly the classrooms whose
    teacher name is that name; any other session is sent to the login page
    with a warning. *)
Theorem teacher_dashboard_rule db session :
  let authorised := role session = Some "Teacher"
                    ∧ Py.truthy_opt (user_name session) = true in
  (¬ authorised →
   teacher_dashboard db session
   = {| site_resp := SiteRedirect ep_login; site_session := session;
        site_flashes := [flash_teacher_login] |})
  ∧ (authorised →
     ∃ mine,
       teacher_dashboard db session
       = {| site_resp := SiteListing "teacher_dashboard.html" mine (current_user session);
            site_session := session; site_flashes := [] |}
       ∧ ∀ c, c ∈ mine ↔ c ∈ dict_values (classrooms db)
                          ∧ Some (c_teacher_name c) = user_name session).
Proof.
  intros authorised. subst authorised. unfold teacher_dashboard. simpl.
  destruct (decide (role session = Some "Teacher")) as [Hr|Hr].
  - rewrite (bool_decide_true _ Hr). simpl.
    destruct (Py.truthy_opt (user_name session)); simpl.
    + split; [tauto|]. intros _. eexists. split; [done|].
      intros c. unfold classrooms_of. rewrite list_elem_of_filter. tauto.
    + split; [done|]. by intros [_ ?].
  - rewrite (bool_decide_false _ Hr). simpl. split; [done | tauto].
Qed.

(** ** After a join *)

(** X21. Joining leads where it says: after a join that resolves to a
    classroom, the classroom page the response redirects to is rendered for
    that session. *)
Theorem join_then_view db session jreq req c :
  store_wf db →
  find_by_code (Py.strip (form_get_default "code" "" jreq)) db = Some c →
  method req = GET →
  let o := join_classroom db session jreq in
  resp o = Redirect (ep_classroom_page (c_id c))
  ∧ classroom_page (c_id c) (db_out o) (session_out o) req
    = Done {| resp := RenderTemplate "classroom.html" (Some c)
                        (current_user (session_out o));
              db_out := db; session_out := session_out o; flashes := [] |}.
Proof.
  intros Hwf Hf Hm o.
  destruct (find_by_code_get _ _ _ Hwf Hf) as [Hg Hpriv].
  subst o. rewrite (join_classroom_found _ _ _ c) by done. simpl.
  split; [done|].
  apply classroom_page_get; [done| |done].
  unfold view_allowed. rewrite (bool_decide_true _ Hpriv). simpl.
  destruct (is_owning_teacher _ c); [done|].
  rewrite bool_decide_true; [done|].
  case_bool_decide; [done|]. apply elem_of_app. right. left.
Qed.

Lemma join_then_view_witness :
  let o := join_classroom ex_db ex_cid (ex_join "123456") in
  resp o = Redirect (ep_classroom_page (c_id ex_algebra))
  ∧ classroom_page (c_id ex_algebra) (db_out o) (session_out o) ex_get
    = Done {| resp := RenderTemplate "classroom.html" (Some ex_algebra)
                        (current_user (session_out o));
              db_out := ex_db; session_out := session_out o; flashes := [] |}.
Proof.
  apply (join_then_view ex_db ex_cid (ex_join "123456") ex_get ex_algebra);
    [apply (bool_decide_unpack _); vm_compute; exact I | reflexivity | reflexivity].
Defined.

(** X22. A joined list without duplicates stays without duplicates through
    a join and through a login. *)
Theorem joined_list_stays_duplicate_free db session req :
  NoDup (default [] (joined_classrooms session)) →
  NoDup (default [] (joined_classrooms (session_out (join_classroom db session req))))
  ∧ NoDup (default [] (joined_classrooms (site_session (login session req)))).
Proof.
  intros Hnd. split; [by apply join_classroom_nodup|].
  unfold login. destruct (method req); [done|].
  by destruct (_ || _).
Qed.

Lemma joined_list_stays_duplicate_free_witness :
  NoDup (default [] (joined_classrooms
                       (session_out (join_classroom ex_db ex_ben (ex_join "123456")))))
  ∧ NoDup (default [] (joined_classrooms
                         (site_session (login ex_ben (ex_join "123456"))))).
Proof.
  apply (joined_list_stays_duplicate_free ex_db ex_ben (ex_join "123456")).
  simpl. apply NoDup_singleton.
Defined.

(** X2. For a teacher's creation with one of the visibilities the form
    offers, the stored classroom has that visibility and satisfies the code
    invariant: ["Private"], or no visibility posted, gives a private
    classroom whose code is the generated six digits, and ["Public"] gives
    a public classroom with the empty code. *)
Theorem create_classroom_offered_visibility cid g db session req :
  role session = Some "Teacher" →
  Py.truthy_opt (user_name session) = true →
  form_get "visibility" req = None ∨ form_get "visibility" req = Some "Private"
  ∨ form_get "visibility" req = Some "Public" →
  ∃ c, dict_get cid (classrooms (db_out (create_classroom cid g db session req))) = Some c
       ∧ code_invariant c
       ∧ (form_get "visibility" req = Some "Public" →
          c_visibility c = "Public" ∧ c_code c = "")
       ∧ (form_get "visibility" req ≠ Some "Public" →
          c_visibility c = "Private" ∧ c_code c = fst (generate_code g)
          ∧ six_digits (c_code c) = true).
Proof.
  intros Hr Hn Hv.
  set (v := form_get_default "visibility" "Private" req).
  assert ((form_get "visibility" req = Some "Public" ∧ v = "Public")
          ∨ (form_get "visibility" req ≠ Some "Public" ∧ v = "Private")) as Hcases.
  { unfold v, form_get_default.
    destruct Hv as [-> | [-> | ->]]; simpl; [right | right | left]; by split. }
  pose proof (generate_code_six_digits g) as Hsix.
  eexists. split; [by apply create_classroom_stored|]. fold v.
  unfold code_invariant. cbn [c_visibility c_code].
  destruct Hcases as [[Hf Hv'] | [Hf Hv']]; rewrite Hv'.
  - rewrite (bool_decide_true ("Public" = "Public")) by done.
    rewrite (bool_decide_false ("Public" = "Private")) by done.
    split; [split; [auto | by split]|]. by split.
  - rewrite (bool_decide_false ("Private" = "Public")) by done.
    rewrite (bool_decide_true ("Private" = "Private")) by done.
    split; [split; [auto | by split]|]. by split.
Qed.

Lemma create_classroom_offered_visibility_witness :
  ∃ c, dict_get "c9" (classrooms (db_out (create_classroom "c9" (λ n, n) ex_db ex_ava
                                             (ex_create "Botany" "Private")))) = Some c
       ∧ code_invariant c
       ∧ (form_get "visibility" (ex_create "Botany" "Private") = Some "Public" →
          c_visibility c = "Public" ∧ c_code c = "")
       ∧ (form_get "visibility" (ex_create "Botany" "Private") ≠ Some "Public" →
          c_visibility c = "Private" ∧ c_code c = fst (generate_code (λ n, n))
          ∧ six_digits (c_code c) = true).
Proof.
  apply (create_classroom_offered_visibility "c9" (λ n, n) ex_db ex_ava
           (ex_create "Botany" "Private"));
    [reflexivity | reflexivity | right; left; reflexivity].
Defined.

(** ** The digit limit of [int] *)

Lemma int_space_not_digit (c : ascii) : Py.int_space c = true → Py.isdigit c = false.
Proof.
  unfold Py.int_space, Py.isdigit. set (n := Py.code_point c).
  intros Hsp. apply andb_false_iff.
  repeat (apply orb_true_iff in Hsp as [Hsp | Hsp]).
  - apply andb_true_iff in Hsp as [_ Hhi%N.leb_le]. left. apply N.leb_gt. lia.
  - apply N.eqb_eq in Hsp. left. apply N.leb_gt. lia.
  - apply N.eqb_eq in Hsp. right. apply N.leb_gt. lia.
  - apply N.eqb_eq in Hsp. right. apply N.leb_gt. lia.
Qed.

Lemma count_digits_lskip (s : string) :
  Py.count_digits (Py.int_lskip s) = Py.count_digits s.
Proof.
  induction s as [|c r IH]; simpl; [done|].
  destruct (Py.int_space c) eqn:Hc; [|done].
  by rewrite IH, (int_space_not_digit c Hc).
Qed.

Lemma count_digits_rskip (s : string) :
  Py.count_digits (Py.int_rskip s) = Py.count_digits s.
Proof.
  induction s as [|c r IH]; simpl; [done|].
  destruct (Py.int_rskip r) as [|c' r'] eqn:Hr.
  - simpl in IH. rewrite <- IH.
    destruct (Py.int_space c) eqn:Hc; simpl; [|done].
    by rewrite (int_space_not_digit c Hc).
  - simpl in *. by rewrite IH.
Qed.

Lemma int_literal_long (s : string) :
  (Py.int_max_str_digits < Py.count_digits s)%N → Py.int_literal s = None.
Proof.
  intros Hlong. unfold Py.int_literal.
  destruct (Py.int_digits 0 false s); [|done].
  by rewrite (proj2 (N.leb_gt _ _) Hlong).
Qed.

(** Whatever else it holds, a string with more than 4300 digits is refused
    by [int]. *)
Lemma int_refuses_long (s : string) :
  (Py.int_max_str_digits < Py.count_digits s)%N → Py.int s = None.
Proof.
  intros Hlong. unfold Py.int.
  rewrite <- count_digits_lskip, <- count_digits_rskip in Hlong.
  destruct (Py.int_rskip (Py.int_lskip s)) as [|c r]; [by apply int_literal_long|].
  assert (Py.int_literal (String c r) = None) as Hnone by by apply int_literal_long.
  destruct (decide (c = "-"%char)) as [->|Hm].
  { simpl in Hlong. by rewrite int_literal_long. }
  destruct (decide (c = "+"%char)) as [->|Hp].
  { simpl in Hlong. by rewrite int_literal_long. }
  destruct c as [[] [] [] [] [] [] [] []]; try done.
Qed.

(** A permitted submission whose index field has more than 4300 digits
    kills the handler; nothing is stored. *)
Lemma submit_long_index_raises class_id db session req c (s : string) :
  dict_get class_id (classrooms db) = Some c →
  method req = POST →
  form_get "action" req = Some "submit_assignment" →
  submit_allowed (current_user session) class_id c = true →
  form_get "assignment_idx" req = Some s →
  (Py.int_max_str_digits < Py.count_digits s)%N →
  classroom_page class_id db session req = Raised ValueError.
Proof.
  intros Hg Hm Ha Hs Hfield Hlong.
  rewrite (classroom_page_post _ _ _ _ c) by auto using submit_allowed_view.
  rewrite post_action_submit_malformed; [done..|].
  by rewrite (assignment_idx_field req s), int_refuses_long.
Qed.
